(** * opta-erp backend: catalog and sale handlers

    A shallow embedding of [app/models], [app/schemas], [app/api/inventory.py]
    and [app/api/sales.py].  Tables are lists of rows in storage order, a
    SQLAlchemy session is a unit of work over a durable store, and a handler
    is a computation in a small state-and-exception monad over the session. *)

From Stdlib Require Import ZArith List String Ascii Bool Floats Lia.
From Stdlib Require Import DecimalString Sorted Permutation.
Import ListNotations.
Local Open Scope string_scope.
Local Open Scope list_scope.
Local Open Scope Z_scope.

(** ** app/models *)

Inductive StockStatus := IN_STOCK | LOW_STOCK | OUT_OF_STOCK.

Inductive PaymentMethod :=
  CASH | CREDIT_CARD | DEBIT_CARD | BANK_TRANSFER | MOBILE_PAYMENT.

(** Rows carry the columns the handlers read or write.  The [created_at],
    [updated_at] and [last_updated] columns of users, categories, products and
    inventory are filled by the database server ([server_default], [onupdate])
    and read by no handler; [Sale.created_at] is kept, the sale listing
    filters and orders by it.  Timestamps are microseconds since the epoch in
    the time zone of the database session. *)

Module User.
Record t := mk { id : Z; email : string; is_active : bool }.
End User.

Module Category.
Record t := mk { id : Z; name : string; description : option string }.
End Category.

Module Product.
Record t := mk {
  id : Z;
  category_id : Z;
  name : string;
  description : option string;
  model_number : option string;
  specifications : option string;
  cost_price : float;
  selling_price : float;
  barcode : option string;
  image_url : option string }.
End Product.

Module InventoryItem.
Record t := mk {
  id : Z;
  product_id : Z;
  quantity : Z;
  location : option string;
  status : StockStatus }.
End InventoryItem.

Module Sale.
Record t := mk {
  id : Z;
  user_id : Z;
  customer_name : option string;
  customer_email : option string;
  customer_phone : option string;
  total_amount : float;
  payment_method : PaymentMethod;
  created_at : Z }.
End Sale.

Module SaleItem.
Record t := mk {
  id : Z;
  sale_id : Z;
  product_id : Z;
  quantity : Z;
  unit_price : float;
  total_price : float }.
End SaleItem.

(** ** app/schemas *)

(** A field of an update schema: left out of the request body, or given
    (possibly as an explicit null, for the [Optional] ones). *)
Inductive field (A : Type) := Unset | Given (v : A).
Arguments Unset {A}.
Arguments Given {A} v.

Module CategoryCreate.
Record t := mk { name : string; description : option string }.
End CategoryCreate.

Module CategoryUpdate.
Record t := mk {
  name : field (option string);
  description : field (option string) }.
End CategoryUpdate.

Module ProductCreate.
Record t := mk {
  category_id : Z;
  name : string;
  description : option string;
  model_number : option string;
  specifications : option string;
  cost_price : float;
  selling_price : float;
  barcode : option string;
  image_url : option string }.

(** [Field(..., gt=0)] on the two prices. *)
Definition valid (p : t) : bool :=
  PrimFloat.ltb 0%float (cost_price p) && PrimFloat.ltb 0%float (selling_price p).
End ProductCreate.

Module ProductUpdate.
Record t := mk {
  category_id : field (option Z);
  name : field (option string);
  description : field (option string);
  model_number : field (option string);
  specifications : field (option string);
  cost_price : field (option float);
  selling_price : field (option float);
  barcode : field (option string);
  image_url : field (option string) }.

(** [Field(None, gt=0)]: a price that is given and not null is positive. *)
Definition positive (price : field (option float)) : bool :=
  match price with
  | Given (Some x) => PrimFloat.ltb 0%float x
  | _ => true
  end.

Definition valid (p : t) : bool :=
  positive (cost_price p) && positive (selling_price p).
End ProductUpdate.

Module ProductWithStock.
Record t := mk {
  product : Product.t;
  current_stock : Z;
  status : StockStatus }.
End ProductWithStock.

Module InventoryItemUpdate.
Record t := mk {
  quantity : field (option Z);
  location : field (option string);
  status : field (option StockStatus) }.
End InventoryItemUpdate.

Module SaleItemCreate.
Record t := mk {
  product_id : Z;
  quantity : Z;
  unit_price : float;
  total_price : float }.

(** [Field(..., gt=0)] on the three numbers. *)
Definition valid (i : t) : bool :=
  (0 <? quantity i) && PrimFloat.ltb 0%float (unit_price i)
    && PrimFloat.ltb 0%float (total_price i).
End SaleItemCreate.

Module SaleCreate.
Record t := mk {
  customer_name : option string;
  customer_email : option string;
  customer_phone : option string;
  total_amount : float;
  payment_method : PaymentMethod;
  items : list SaleItemCreate.t }.

(** [total_amount: float = Field(..., gt=0)]; [items] is any list. *)
Definition valid (s : t) : bool :=
  PrimFloat.ltb 0%float (total_amount s) && forallb SaleItemCreate.valid (items s).
End SaleCreate.

(** The [Sale] response schema: the header with its [items] relationship. *)
Module SaleSchema.
Record t := mk { sale : Sale.t; items : list SaleItem.t }.
End SaleSchema.

(** ** The store and the session *)

Record DB := mkDB {
  categories : list Category.t;
  products : list Product.t;
  inventory : list InventoryItem.t;
  sales : list Sale.t;
  sale_items : list SaleItem.t }.

(** A session holds the rows as last committed, the rows as the current
    transaction sees them (identity map and pending changes together), and
    whether anything is waiting to be flushed. *)
Record Session := mkSession { durable : DB; pending : DB; dirty : bool }.

Inductive Exn :=
| HTTPException (status_code : Z) (detail : string)
| NameError (name : string)
| IntegrityError.

Inductive outcome (A : Type) := Return (a : A) | Raise (e : Exn).
Arguments Return {A} a.
Arguments Raise {A} e.

(** A handler body: it runs on a session and returns or raises, leaving the
    session as it is at that point. *)
Definition M (A : Type) := Session -> outcome A * Session.

Definition ret {A} (a : A) : M A := fun s => (Return a, s).

Definition raise {A} (e : Exn) : M A := fun s => (Raise e, s).

Definition bind {A B} (m : M A) (k : A -> M B) : M B :=
  fun s => match m s with
           | (Return a, s') => k a s'
           | (Raise e, s') => (Raise e, s')
           end.

Notation "x <- m ;; k" := (bind m (fun x => k))
  (at level 100, m at next level, right associativity).
Notation "m ;;; k" := (bind m (fun _ => k))
  (at level 100, right associativity).

(** [for x in l: body(x)] *)
Fixpoint for_each {A} (l : list A) (body : A -> M unit) : M unit :=
  match l with
  | [] => ret tt
  | x :: l' => body x ;;; for_each l' body
  end.

(** Reading and changing the rows of the current transaction. *)
Definition query {A} (f : DB -> A) : M A := fun s => (Return (f (pending s)), s).

Definition modify (f : DB -> DB) : M unit :=
  fun s => (Return tt, mkSession (durable s) (f (pending s)) true).

(** The request ends ([get_db] closes the session): what was not committed is
    dropped, the durable rows are what the next request finds. *)
Definition run_request {A} (h : M A) (db : DB) : outcome A * DB :=
  let (r, s) := h (mkSession db db false) in (r, durable s).

(** Replacing one table of the store. *)
Definition set_categories (l : list Category.t) (db : DB) : DB :=
  mkDB l (products db) (inventory db) (sales db) (sale_items db).

Definition set_products (l : list Product.t) (db : DB) : DB :=
  mkDB (categories db) l (inventory db) (sales db) (sale_items db).

Definition set_inventory (l : list InventoryItem.t) (db : DB) : DB :=
  mkDB (categories db) (products db) l (sales db) (sale_items db).

Definition set_sales (l : list Sale.t) (db : DB) : DB :=
  mkDB (categories db) (products db) (inventory db) l (sale_items db).

Definition set_sale_items (l : list SaleItem.t) (db : DB) : DB :=
  mkDB (categories db) (products db) (inventory db) (sales db) l.

(** An autoincrement primary key: greater than every key in the table. *)
Definition next_id (ids : list Z) : Z := 1 + fold_right Z.max 0 ids.

(** [.filter(...).first()]: the first row, in storage order, that matches. *)
Definition first {A} (p : A -> bool) (rows : list A) : option A := find p rows.

(** Assigning to the row object a query returned changes that row, the first
    match, where it stands. *)
Fixpoint update_first {A} (p : A -> bool) (f : A -> A) (rows : list A) : list A :=
  match rows with
  | [] => []
  | r :: rows' => if p r then f r :: rows' else r :: update_first p f rows'
  end.

(** [str(n)] for an integer. *)
Definition str (n : Z) : string := NilZero.string_of_int (Z.to_int n).

(** The threshold rule of the stock status. *)
Definition threshold_rule (quantity : Z) : StockStatus :=
  if quantity <=? 0 then OUT_OF_STOCK
  else if quantity <? 5 then LOW_STOCK
  else IN_STOCK.

Definition product_by_id (product_id : Z) (p : Product.t) : bool :=
  Product.id p =? product_id.

Definition inventory_of (product_id : Z) (i : InventoryItem.t) : bool :=
  InventoryItem.product_id i =? product_id.

Definition category_by_id (category_id : Z) (c : Category.t) : bool :=
  Category.id c =? category_id.

Definition sale_by_id (sale_id : Z) (s : Sale.t) : bool :=
  Sale.id s =? sale_id.

Definition items_of_sale (sale_id : Z) (i : SaleItem.t) : bool :=
  SaleItem.sale_id i =? sale_id.

Definition InventoryItem_set_quantity (q : Z) (i : InventoryItem.t) : InventoryItem.t :=
  InventoryItem.mk (InventoryItem.id i) (InventoryItem.product_id i) q
    (InventoryItem.location i) (InventoryItem.status i).

(** [SaleSchema.from_orm]: the header and the rows of its [items]
    relationship. *)
Definition sale_with_items (db : DB) (s : Sale.t) : SaleSchema.t :=
  SaleSchema.mk s (filter (items_of_sale (Sale.id s)) (sale_items db)).

Section Handlers.

(** The storage engine and the session factory ([app/core/db.py]) are not part
    of the sources at hand.  What the engine checks when a transaction is
    flushed and committed (NOT NULL, UNIQUE and FOREIGN KEY constraints of the
    models, in whatever way it enforces them) is a parameter: [accepts old new]
    tells whether the move from the committed rows [old] to the pending rows
    [new] goes through. *)
Variable accepts : DB -> DB -> bool.

(** The engine's [ILIKE] operator: [ilike pattern text]. *)
Variable ilike : string -> string -> bool.

(** [db.commit()]: every pending change becomes durable, or the engine
    refuses, the transaction is rolled back and the error propagates.  With
    nothing to flush there is nothing to refuse. *)
Definition commit : M unit :=
  fun s =>
    if negb (dirty s) || accepts (durable s) (pending s)
    then (Return tt, mkSession (pending s) (pending s) false)
    else (Raise IntegrityError, mkSession (durable s) (durable s) false).

(** *** app/api/sales.py *)

(** [db.add(db_sale)]: the header gets its key and [created_at] from the
    server when it is inserted. *)
Definition new_sale (now : Z) (sale : SaleCreate.t) (current_user : User.t) (db : DB)
  : Sale.t :=
  Sale.mk (next_id (map Sale.id (sales db)))
    (User.id current_user)
    (SaleCreate.customer_name sale)
    (SaleCreate.customer_email sale)
    (SaleCreate.customer_phone sale)
    (SaleCreate.total_amount sale)
    (SaleCreate.payment_method sale)
    now.

Definition add_sale (s : Sale.t) (db : DB) : DB := set_sales (sales db ++ [s]) db.

(** [db.delete(db_sale)] *)
Definition delete_sale (s : Sale.t) (db : DB) : DB :=
  set_sales (filter (fun r => negb (sale_by_id (Sale.id s) r)) (sales db)) db.

Definition add_sale_item (db_sale : Sale.t) (item : SaleItemCreate.t) (db : DB) : DB :=
  set_sale_items
    (sale_items db ++
       [SaleItem.mk (next_id (map SaleItem.id (sale_items db)))
          (Sale.id db_sale)
          (SaleItemCreate.product_id item)
          (SaleItemCreate.quantity item)
          (SaleItemCreate.unit_price item)
          (SaleItemCreate.total_price item)])
    db.

(** [inventory.quantity -= item.quantity] on the row object [first] gave. *)
Definition decrement_inventory (item : SaleItemCreate.t) (db : DB) : DB :=
  set_inventory
    (update_first (inventory_of (SaleItemCreate.product_id item))
       (fun i => InventoryItem_set_quantity
                   (InventoryItem.quantity i - SaleItemCreate.quantity item) i)
       (inventory db))
    db.

(** The two abort paths: [db.delete(db_sale); db.commit(); raise ...]. *)
Definition abort_sale {A} (db_sale : Sale.t) (e : Exn) : M A :=
  modify (delete_sale db_sale) ;;;
  commit ;;;
  raise e.

(** One turn of [for item in sale.items].  The sales module never imports
    [StockStatus] (it imports [Product] and [InventoryItem] only), so both
    status assignments raise [NameError] when they are reached; there is no
    branch for a quantity of five or more. *)
Definition sale_item_step (db_sale : Sale.t) (item : SaleItemCreate.t) : M unit :=
  product <- query (fun db => first (product_by_id (SaleItemCreate.product_id item))
                                (products db)) ;;
  match product with
  | None =>
      abort_sale db_sale
        (HTTPException 404
           ("Product with ID " ++ str (SaleItemCreate.product_id item) ++ " not found"))
  | Some product =>
      inventory <- query (fun db => first (inventory_of (SaleItemCreate.product_id item))
                                      (inventory db)) ;;
      let insufficient :=
        abort_sale db_sale
          (HTTPException 400
             ("Insufficient inventory for product " ++ Product.name product)) in
      match inventory with
      | None => insufficient
      | Some inventory =>
          if InventoryItem.quantity inventory <? SaleItemCreate.quantity item
          then insufficient
          else
            modify (add_sale_item db_sale item) ;;;
            modify (decrement_inventory item) ;;;
            (* inventory.quantity, as the row object now has it *)
            let quantity :=
              InventoryItem.quantity inventory - SaleItemCreate.quantity item in
            if quantity <=? 0 then raise (NameError "StockStatus")
            else if quantity <? 5 then raise (NameError "StockStatus")
            else ret tt
      end
  end.

Definition create_sale (now : Z) (sale : SaleCreate.t) (current_user : User.t)
  : M (option SaleSchema.t) :=
  db_sale <- query (new_sale now sale current_user) ;;
  modify (add_sale db_sale) ;;;
  commit ;;;
  for_each (SaleCreate.items sale) (sale_item_step db_sale) ;;;
  commit ;;;
  query (fun db => option_map (sale_with_items db)
                     (first (sale_by_id (Sale.id db_sale)) (sales db))).

Definition get_sale (sale_id : Z) : M SaleSchema.t :=
  sale <- query (fun db => option_map (sale_with_items db)
                             (first (sale_by_id sale_id) (sales db))) ;;
  match sale with
  | None => raise (HTTPException 404 "Sale not found")
  | Some sale => ret sale
  end.

(** A [date] is a day number; compared with a timestamp it stands for its
    midnight. *)
Definition day : Z := 86400000000.

Definition midnight (d : Z) : Z := d * day.


(** [order_by(Sale.created_at.desc())]; the order of rows with the same
    timestamp is the engine's choice, here the one of insertion sort. *)
Fixpoint insert_desc (s : Sale.t) (l : list Sale.t) : list Sale.t :=
  match l with
  | [] => [s]
  | r :: l' =>
      if Sale.created_at r <? Sale.created_at s then s :: l
      else r :: insert_desc s l'
  end.

Definition order_by_created_at_desc (l : list Sale.t) : list Sale.t :=
  fold_right insert_desc [] l.

(** The two optional [filter] calls of [get_sales]. *)
Definition in_date_range (start_date end_date : option Z) (s : Sale.t) : bool :=
  match start_date with
  | Some start_date => midnight start_date <=? Sale.created_at s
  | None => true
  end
  &&
  match end_date with
  | Some end_date =>
      let next_day := end_date + 1 in
      Sale.created_at s <? midnight next_day
  | None => true
  end.

(** [.offset(skip).limit(limit)], both non-negative as SQL requires. *)
Definition page {A} (skip limit : nat) (rows : list A) : list A :=
  firstn limit (skipn skip rows).

Definition get_sales (skip limit : nat) (start_date end_date : option Z)
  : M (list SaleSchema.t) :=
  query (fun db =>
           map (sale_with_items db)
             (page skip limit
                (order_by_created_at_desc
                   (filter (in_date_range start_date end_date) (sales db))))).

(** *** app/api/inventory.py: categories *)

Definition create_category (category : CategoryCreate.t) : M Category.t :=
  db_category <- query (fun db =>
    Category.mk (next_id (map Category.id (categories db)))
      (CategoryCreate.name category) (CategoryCreate.description category)) ;;
  modify (fun db => set_categories (categories db ++ [db_category]) db) ;;;
  commit ;;;
  ret db_category.


Definition read_category (category_id : Z) : M Category.t :=
  db_category <- query (fun db => first (category_by_id category_id) (categories db)) ;;
  match db_category with
  | None => raise (HTTPException 404 "Category not found")
  | Some db_category => ret db_category
  end.

(** The items of [category.dict(exclude_unset=True)]. *)
Inductive CategoryAttr :=
| Category_name (v : option string)
| Category_description (v : option string).

Definition CategoryUpdate_dict (category : CategoryUpdate.t) : list CategoryAttr :=
  match CategoryUpdate.name category with
  | Unset => [] | Given v => [Category_name v] end
  ++
  match CategoryUpdate.description category with
  | Unset => [] | Given v => [Category_description v] end.

(** [setattr(db_category, key, value)].  [None] stands for an object that
    holds a null in a column declared [nullable=False]: its flush fails. *)
Definition Category_setattr (c : option Category.t) (a : CategoryAttr)
  : option Category.t :=
  match c, a with
  | None, _ => None
  | Some c, Category_name None => None
  | Some c, Category_name (Some v) =>
      Some (Category.mk (Category.id c) v (Category.description c))
  | Some c, Category_description v =>
      Some (Category.mk (Category.id c) (Category.name c) v)
  end.

(** [db.commit()] with a changed row object: the row is written where it
    stands, or the NOT NULL violation rolls the transaction back. *)
Definition commit_row {A} (written : option A) (write : A -> DB -> DB) : M A :=
  match written with
  | None =>
      fun s => (Raise IntegrityError, mkSession (durable s) (durable s) false)
  | Some row => modify (write row) ;;; commit ;;; ret row
  end.

Definition update_category (category_id : Z) (category : CategoryUpdate.t)
  : M Category.t :=
  db_category <- query (fun db => first (category_by_id category_id) (categories db)) ;;
  match db_category with
  | None => raise (HTTPException 404 "Category not found")
  | Some db_category =>
      let update_data := CategoryUpdate_dict category in
      commit_row (fold_left Category_setattr update_data (Some db_category))
        (fun row db =>
           set_categories
             (update_first (category_by_id category_id) (fun _ => row) (categories db))
             db)
  end.

Definition delete_category (category_id : Z) : M string :=
  db_category <- query (fun db => first (category_by_id category_id) (categories db)) ;;
  match db_category with
  | None => raise (HTTPException 404 "Category not found")
  | Some db_category =>
      modify (fun db =>
                set_categories
                  (filter (fun c => negb (category_by_id (Category.id db_category) c))
                     (categories db))
                  db) ;;;
      commit ;;;
      ret "Category deleted successfully"
  end.

(** *** app/api/inventory.py: products *)

Definition new_product (product : ProductCreate.t) (db : DB) : Product.t :=
  Product.mk (next_id (map Product.id (products db)))
    (ProductCreate.category_id product)
    (ProductCreate.name product)
    (ProductCreate.description product)
    (ProductCreate.model_number product)
    (ProductCreate.specifications product)
    (ProductCreate.cost_price product)
    (ProductCreate.selling_price product)
    (ProductCreate.barcode product)
    (ProductCreate.image_url product).

(** [InventoryItem(product_id=..., quantity=0, status=StockStatus.OUT_OF_STOCK)] *)
Definition initial_inventory (product_id : Z) (db : DB) : InventoryItem.t :=
  InventoryItem.mk (next_id (map InventoryItem.id (inventory db)))
    product_id 0 None OUT_OF_STOCK.

Definition add_inventory (i : InventoryItem.t) (db : DB) : DB :=
  set_inventory (inventory db ++ [i]) db.

Definition create_product (product : ProductCreate.t) : M Product.t :=
  category <- query (fun db => first (category_by_id (ProductCreate.category_id product))
                                 (categories db)) ;;
  match category with
  | None => raise (HTTPException 404 "Category not found")
  | Some _ =>
      db_product <- query (new_product product) ;;
      modify (fun db => set_products (products db ++ [db_product]) db) ;;;
      commit ;;;
      inventory_item <- query (initial_inventory (Product.id db_product)) ;;
      modify (add_inventory inventory_item) ;;;
      commit ;;;
      ret db_product
  end.

(** [Product] outer-joined to [InventoryItem] on the product key: a product
    without an inventory row comes once, with no row. *)
Definition outer_join (db : DB) : list (Product.t * option InventoryItem.t) :=
  flat_map
    (fun p =>
       match filter (inventory_of (Product.id p)) (inventory db) with
       | [] => [(p, None)]
       | rows => map (fun i => (p, Some i)) rows
       end)
    (products db).

(** A null column matches no pattern. *)
Definition ilike_column (pattern : string) (column : option string) : bool :=
  match column with
  | Some text => ilike pattern text
  | None => false
  end.

(** The [category_id] and [search] filters of [read_products]; a zero
    [category_id] and an empty [search] are falsy and filter nothing. *)
Definition product_filter (category_id : option Z) (search : option string)
    (p : Product.t) : bool :=
  match category_id with
  | Some c => if c =? 0 then true else Product.category_id p =? c
  | None => true
  end
  &&
  match search with
  | Some search =>
      if String.eqb search "" then true
      else
        let search_term := ("%" ++ search ++ "%")%string in
        ilike search_term (Product.name p)
        || ilike_column search_term (Product.model_number p)
        || ilike_column search_term (Product.description p)
  | None => true
  end.

(** The inventory information added to the product's fields. *)
Definition with_stock (product : Product.t) (inventory : option InventoryItem.t)
  : ProductWithStock.t :=
  match inventory with
  | Some inventory =>
      ProductWithStock.mk product (InventoryItem.quantity inventory)
        (InventoryItem.status inventory)
  | None => ProductWithStock.mk product 0 OUT_OF_STOCK
  end.

Definition read_products (skip limit : nat) (category_id : option Z)
    (search : option string) : M (list ProductWithStock.t) :=
  results <- query (fun db =>
    page skip limit
      (filter (fun r => product_filter category_id search (fst r)) (outer_join db))) ;;
  ret (map (fun r => with_stock (fst r) (snd r)) results).

Definition read_product (product_id : Z) : M ProductWithStock.t :=
  db_product <- query (fun db => first (product_by_id product_id) (products db)) ;;
  match db_product with
  | None => raise (HTTPException 404 "Product not found")
  | Some db_product =>
      inventory <- query (fun db => first (inventory_of product_id) (inventory db)) ;;
      ret (with_stock db_product inventory)
  end.

(** The items of [product.dict(exclude_unset=True)]. *)
Inductive ProductAttr :=
| Product_category_id (v : option Z)
| Product_name (v : option string)
| Product_description (v : option string)
| Product_model_number (v : option string)
| Product_specifications (v : option string)
| Product_cost_price (v : option float)
| Product_selling_price (v : option float)
| Product_barcode (v : option string)
| Product_image_url (v : option string).

Definition item {A B} (key : A -> B) (f : field A) : list B :=
  match f with
  | Unset => []
  | Given v => [key v]
  end.

Definition ProductUpdate_dict (product : ProductUpdate.t) : list ProductAttr :=
  item Product_category_id (ProductUpdate.category_id product)
  ++ item Product_name (ProductUpdate.name product)
  ++ item Product_description (ProductUpdate.description product)
  ++ item Product_model_number (ProductUpdate.model_number product)
  ++ item Product_specifications (ProductUpdate.specifications product)
  ++ item Product_cost_price (ProductUpdate.cost_price product)
  ++ item Product_selling_price (ProductUpdate.selling_price product)
  ++ item Product_barcode (ProductUpdate.barcode product)
  ++ item Product_image_url (ProductUpdate.image_url product).

(** [setattr(db_product, key, value)]; [category_id], [name] and the two
    prices are [nullable=False]. *)
Definition Product_setattr (p : option Product.t) (a : ProductAttr)
  : option Product.t :=
  match p with
  | None => None
  | Some p =>
      let '(Product.mk id category_id name description model_number
              specifications cost_price selling_price barcode image_url) := p in
      match a with
      | Product_category_id v =>
          option_map (fun v => Product.mk id v name description model_number
                        specifications cost_price selling_price barcode image_url) v
      | Product_name v =>
          option_map (fun v => Product.mk id category_id v description model_number
                        specifications cost_price selling_price barcode image_url) v
      | Product_description v =>
          Some (Product.mk id category_id name v model_number
                  specifications cost_price selling_price barcode image_url)
      | Product_model_number v =>
          Some (Product.mk id category_id name description v
                  specifications cost_price selling_price barcode image_url)
      | Product_specifications v =>
          Some (Product.mk id category_id name description model_number
                  v cost_price selling_price barcode image_url)
      | Product_cost_price v =>
          option_map (fun v => Product.mk id category_id name description model_number
                        specifications v selling_price barcode image_url) v
      | Product_selling_price v =>
          option_map (fun v => Product.mk id category_id name description model_number
                        specifications cost_price v barcode image_url) v
      | Product_barcode v =>
          Some (Product.mk id category_id name description model_number
                  specifications cost_price selling_price v image_url)
      | Product_image_url v =>
          Some (Product.mk id category_id name description model_number
                  specifications cost_price selling_price barcode v)
      end
  end.

(** [if "category_id" in update_data]: the referenced category must exist;
    a null key matches no category. *)
Definition category_missing (product : ProductUpdate.t) (db : DB) : bool :=
  match ProductUpdate.category_id product with
  | Unset => false
  | Given None => true
  | Given (Some c) =>
      match first (category_by_id c) (categories db) with
      | Some _ => false
      | None => true
      end
  end.

Definition update_product (product_id : Z) (product : ProductUpdate.t) : M Product.t :=
  db_product <- query (fun db => first (product_by_id product_id) (products db)) ;;
  match db_product with
  | None => raise (HTTPException 404 "Product not found")
  | Some db_product =>
      let update_data := ProductUpdate_dict product in
      missing <- query (category_missing product) ;;
      if missing then raise (HTTPException 404 "Category not found")
      else
        commit_row (fold_left Product_setattr update_data (Some db_product))
          (fun row db =>
             set_products
               (update_first (product_by_id product_id) (fun _ => row) (products db))
               db)
  end.

Definition delete_product (product_id : Z) : M string :=
  db_product <- query (fun db => first (product_by_id product_id) (products db)) ;;
  match db_product with
  | None => raise (HTTPException 404 "Product not found")
  | Some db_product =>
      (* Delete associated inventory item first *)
      modify (fun db =>
                set_inventory
                  (filter (fun i => negb (inventory_of product_id i)) (inventory db))
                  db) ;;;
      modify (fun db =>
                set_products
                  (filter (fun p => negb (product_by_id (Product.id db_product) p))
                     (products db))
                  db) ;;;
      commit ;;;
      ret "Product deleted successfully"
  end.

(** *** app/api/inventory.py: inventory *)

(** The handler as the module has it.  After the two lookups it makes the row
    object for a product that has none, [InventoryItem(product_id=product_id)],
    and the function ends there: the object is not added to the session, no
    field of [inventory_data] is assigned, nothing is committed, and the call
    returns [None]. *)
Definition update_inventory (product_id : Z) (inventory_data : InventoryItemUpdate.t)
  : M (option InventoryItem.t) :=
  product <- query (fun db => first (product_by_id product_id) (products db)) ;;
  match product with
  | None => raise (HTTPException 404 "Product not found")
  | Some _ =>
      inventory_item <- query (fun db => first (inventory_of product_id) (inventory db)) ;;
      ret None
  end.

End Handlers.


(** ** The requests that write, one at a time *)

Inductive Request :=
| POST_categories (category : CategoryCreate.t)
| PUT_categories (category_id : Z) (category : CategoryUpdate.t)
| DELETE_categories (category_id : Z)
| POST_products (product : ProductCreate.t)
| PUT_products (product_id : Z) (product : ProductUpdate.t)
| DELETE_products (product_id : Z)
| PUT_inventory (product_id : Z) (inventory_data : InventoryItemUpdate.t)
| POST_sales (now : Z) (sale : SaleCreate.t) (current_user : User.t).

(** The request body passes the validation of its schema. *)
Definition valid_request (r : Request) : bool :=
  match r with
  | POST_products p => ProductCreate.valid p
  | PUT_products _ p => ProductUpdate.valid p
  | POST_sales _ s _ => SaleCreate.valid s
  | _ => true
  end.

(** The durable rows after a request; the response is dropped.  A body that
    fails validation is answered before the handler runs. *)
Definition serve (accepts : DB -> DB -> bool) (r : Request) (db : DB) : DB :=
  if valid_request r then
    match r with
    | POST_categories c => snd (run_request (create_category accepts c) db)
    | PUT_categories id c => snd (run_request (update_category accepts id c) db)
    | DELETE_categories id => snd (run_request (delete_category accepts id) db)
    | POST_products p => snd (run_request (create_product accepts p) db)
    | PUT_products id p => snd (run_request (update_product accepts id p) db)
    | DELETE_products id => snd (run_request (delete_product accepts id) db)
    | PUT_inventory id i => snd (run_request (update_inventory id i) db)
    | POST_sales now s u => snd (run_request (create_sale accepts now s u) db)
    end
  else db.

Definition empty_db : DB := mkDB [] [] [] [] [].

(** The stores the system can be in: from a first one, by requests served one
    at a time. *)
Inductive reachable (accepts : DB -> DB -> bool) (start : DB) : DB -> Prop :=
| reachable_start : reachable accepts start start
| reachable_serve r db :
    reachable accepts start db -> reachable accepts start (serve accepts r db).

(** The product's inventory row, as every handler looks it up. *)
Definition stock (db : DB) (product_id : Z) : option InventoryItem.t :=
  first (inventory_of product_id) (inventory db).

(** What the lines of a sale request of one product, in total. *)
Definition requested (product_id : Z) (items : list SaleItemCreate.t) : Z :=
  fold_right
    (fun i total =>
       if SaleItemCreate.product_id i =? product_id
       then SaleItemCreate.quantity i + total else total)
    0 items.

Definition non_negative (db : DB) : Prop :=
  Forall (fun i => 0 <= InventoryItem.quantity i) (inventory db).

(** An engine that refuses nothing. *)
Definition accept_all (old new : DB) : bool := true.

(** An [ILIKE] for the concrete runs: the pattern's text between its two
    percent signs occurs in the text, letter case aside. *)
Definition lower (c : ascii) : ascii :=
  let n := nat_of_ascii c in
  if ((65 <=? n) && (n <=? 90))%nat then ascii_of_nat (n + 32) else c.

Fixpoint lowercase (s : string) : string :=
  match s with
  | EmptyString => EmptyString
  | String c s' => String (lower c) (lowercase s')
  end.

Fixpoint contains (fuel : nat) (needle text : string) : bool :=
  if String.prefix needle text then true
  else match fuel, text with
       | S fuel', String _ text' => contains fuel' needle text'
       | _, _ => false
       end.

Definition ilike_contains (pattern text : string) : bool :=
  let needle := String.substring 1 (String.length pattern - 2) pattern in
  contains (String.length text) (lowercase needle) (lowercase text).

(** ** Concrete stores and requests *)

Definition widget : Product.t :=
  Product.mk 1 1 "Widget" None None None 2.5 4 None None.

Definition tools : Category.t := Category.mk 1 "Tools" None.

Definition clerk : User.t := User.mk 1 "clerk@example.com" true.

(** One product with [quantity] pieces in stock. *)
Definition shop (quantity : Z) (status : StockStatus) : DB :=
  mkDB [tools] [widget] [InventoryItem.mk 1 1 quantity None status] [] [].

(** A cash sale of total 10 with the given (product, quantity) lines. *)
Definition order (lines : list (Z * Z)) : SaleCreate.t :=
  SaleCreate.mk None None None 10 CASH
    (map (fun l => SaleItemCreate.mk (fst l) (snd l) 1 1) lines).

(** A second product, three widgets sold, an inventory update, the second
    product removed. *)
Definition four_requests : list Request :=
  [POST_products (ProductCreate.mk 1 "Hammer" None None None 2.5 4 None None);
   POST_sales 100 (order [(1, 3)]) clerk;
   PUT_inventory 1 (InventoryItemUpdate.mk (Given (Some (-5))) Unset Unset);
   DELETE_products 2].

(** A product with no inventory row at all. *)
Definition unstocked : DB := mkDB [tools] [widget] [] [] [].

(** Two sales on day 0; a page of one row shows only the newer. *)
Definition two_sales : DB :=
  mkDB [] [] [] [Sale.mk 1 1 None None None 10 CASH 10;
                 Sale.mk 2 1 None None None 10 CASH 20] [].

(** A property of the rows that holds of the committed and of the pending
    ones stays so through a handler. *)
Definition preserves {A} (P : DB -> Prop) (m : M A) : Prop :=
  forall s, P (durable s) -> P (pending s) ->
            P (durable (snd (m s))) /\ P (pending (snd (m s))).

(** What one accepted line does to the pending rows: its sale-item row is
    added and the product's inventory row is decremented. *)
Definition sold (db_sale : Sale.t) (item : SaleItemCreate.t) (db : DB) : DB :=
  decrement_inventory item (add_sale_item db_sale item db).

(** The sentence on committed sales, read line by line: every line's product
    has lost exactly that line's quantity, and the row's status is the
    threshold rule's value for what is left. *)
Definition commits_line_by_line (accepts : DB -> DB -> bool) : Prop :=
  forall now sale current_user db response db',
    SaleCreate.valid sale = true ->
    run_request (create_sale accepts now sale current_user) db = (Return response, db') ->
    forall item, In item (SaleCreate.items sale) ->
      exists before after_,
        stock db (SaleItemCreate.product_id item) = Some before
        /\ stock db' (SaleItemCreate.product_id item) = Some after_
        /\ InventoryItem.quantity after_
           = InventoryItem.quantity before - SaleItemCreate.quantity item
        /\ InventoryItem.status after_
           = threshold_rule (InventoryItem.quantity after_).

(** The rows left when a product goes: its inventory rows first, then the
    product. *)
Definition without_product (product_id : Z) (db : DB) : DB :=
  set_products (filter (fun p => negb (product_by_id product_id p)) (products db))
    (set_inventory (filter (fun i => negb (inventory_of product_id i)) (inventory db))
       db).

(** The sentence on product deletion, read as a limit of the handler: while
    the product's inventory row is stored, no call of [delete_product] ends
    well with both the product and the row gone. *)
Definition delete_needs_inventory_gone (accepts : DB -> DB -> bool) : Prop :=
  forall product_id db row response db',
    stock db product_id = Some row ->
    run_request (delete_product accepts product_id) db = (Return response, db') ->
    ~ (first (product_by_id product_id) (products db') = None
       /\ stock db' product_id = None).

(** ** Partial updates, in the spec's words

    A field left out of the request keeps the stored value; a field that is
    given takes the value of the request.  A null given for a column that is
    [nullable=False] cannot be stored. *)
Definition assign {A} (old : A) (f : field (option A)) : option A :=
  match f with
  | Unset => Some old
  | Given v => v
  end.

Definition assign_nullable {A} (old : option A) (f : field (option A)) : option A :=
  match f with
  | Unset => old
  | Given v => v
  end.

Definition partial_update_category (category : CategoryUpdate.t) (c : Category.t)
  : option Category.t :=
  match assign (Category.name c) (CategoryUpdate.name category) with
  | Some name =>
      Some (Category.mk (Category.id c) name
              (assign_nullable (Category.description c)
                 (CategoryUpdate.description category)))
  | None => None
  end.

Definition partial_update_product (product : ProductUpdate.t) (p : Product.t)
  : option Product.t :=
  match assign (Product.category_id p) (ProductUpdate.category_id product),
        assign (Product.name p) (ProductUpdate.name product),
        assign (Product.cost_price p) (ProductUpdate.cost_price product),
        assign (Product.selling_price p) (ProductUpdate.selling_price product) with
  | Some category_id, Some name, Some cost_price, Some selling_price =>
      Some (Product.mk (Product.id p) category_id name
              (assign_nullable (Product.description p)
                 (ProductUpdate.description product))
              (assign_nullable (Product.model_number p)
                 (ProductUpdate.model_number product))
              (assign_nullable (Product.specifications p)
                 (ProductUpdate.specifications product))
              cost_price selling_price
              (assign_nullable (Product.barcode p) (ProductUpdate.barcode product))
              (assign_nullable (Product.image_url p) (ProductUpdate.image_url product)))
  | _, _, _, _ => None
  end.

(** What the partial-update sentence says of one field. *)
Definition absent_kept {A B} (f : field A) (old new : B) : Prop :=
  f = Unset -> new = old.

Definition given_stored {A} (f : field (option A)) (new : A) : Prop :=
  forall v, f = Given v -> v = Some new.

Definition given_stored_nullable {A} (f : field (option A)) (new : option A) : Prop :=
  forall v, f = Given v -> new = v.

Definition Category_absent_kept (u : CategoryUpdate.t) (old new : Category.t) : Prop :=
  Category.id new = Category.id old
  /\ absent_kept (CategoryUpdate.name u) (Category.name old) (Category.name new)
  /\ absent_kept (CategoryUpdate.description u)
       (Category.description old) (Category.description new).

Definition Category_given_stored (u : CategoryUpdate.t) (new : Category.t) : Prop :=
  given_stored (CategoryUpdate.name u) (Category.name new)
  /\ given_stored_nullable (CategoryUpdate.description u) (Category.description new).

Definition Product_absent_kept (u : ProductUpdate.t) (old new : Product.t) : Prop :=
  Product.id new = Product.id old
  /\ absent_kept (ProductUpdate.category_id u)
       (Product.category_id old) (Product.category_id new)
  /\ absent_kept (ProductUpdate.name u) (Product.name old) (Product.name new)
  /\ absent_kept (ProductUpdate.description u)
       (Product.description old) (Product.description new)
  /\ absent_kept (ProductUpdate.model_number u)
       (Product.model_number old) (Product.model_number new)
  /\ absent_kept (ProductUpdate.specifications u)
       (Product.specifications old) (Product.specifications new)
  /\ absent_kept (ProductUpdate.cost_price u)
       (Product.cost_price old) (Product.cost_price new)
  /\ absent_kept (ProductUpdate.selling_price u)
       (Product.selling_price old) (Product.selling_price new)
  /\ absent_kept (ProductUpdate.barcode u) (Product.barcode old) (Product.barcode new)
  /\ absent_kept (ProductUpdate.image_url u)
       (Product.image_url old) (Product.image_url new).

Definition Product_given_stored (u : ProductUpdate.t) (new : Product.t) : Prop :=
  given_stored (ProductUpdate.category_id u) (Product.category_id new)
  /\ given_stored (ProductUpdate.name u) (Product.name new)
  /\ given_stored_nullable (ProductUpdate.description u) (Product.description new)
  /\ given_stored_nullable (ProductUpdate.model_number u) (Product.model_number new)
  /\ given_stored_nullable (ProductUpdate.specifications u)
       (Product.specifications new)
  /\ given_stored (ProductUpdate.cost_price u) (Product.cost_price new)
  /\ given_stored (ProductUpdate.selling_price u) (Product.selling_price new)
  /\ given_stored_nullable (ProductUpdate.barcode u) (Product.barcode new)
  /\ given_stored_nullable (ProductUpdate.image_url u) (Product.image_url new).

Definition Inventory_absent_kept (u : InventoryItemUpdate.t)
    (old new : InventoryItem.t) : Prop :=
  InventoryItem.id new = InventoryItem.id old
  /\ InventoryItem.product_id new = InventoryItem.product_id old
  /\ absent_kept (InventoryItemUpdate.quantity u)
       (InventoryItem.quantity old) (InventoryItem.quantity new)
  /\ absent_kept (InventoryItemUpdate.location u)
       (InventoryItem.location old) (InventoryItem.location new)
  /\ absent_kept (InventoryItemUpdate.status u)
       (InventoryItem.status old) (InventoryItem.status new).

(** An update request on a stored row: whatever the outcome, the stored row
    has kept every field the request left out; when the handler returns, it
    returns the stored row, and every given field is stored as given. *)
Definition updates_partially {K U R} (handler : K -> U -> M R)
    (lookup : DB -> K -> option R)
    (absent : U -> R -> R -> Prop) (given : U -> R -> Prop) : Prop :=
  forall key u db old response db',
    lookup db key = Some old ->
    run_request (handler key u) db = (response, db') ->
    exists new,
      lookup db' key = Some new
      /\ absent u old new
      /\ (forall r, response = Return r -> r = new /\ given u new).

(** The first half alone, for a handler that returns something else. *)
Definition keeps_absent_fields {K U R X} (handler : K -> U -> M X)
    (lookup : DB -> K -> option R) (absent : U -> R -> R -> Prop) : Prop :=
  forall key u db old response db',
    lookup db key = Some old ->
    run_request (handler key u) db = (response, db') ->
    exists new, lookup db' key = Some new /\ absent u old new.



(** ** app/models/user.py, app/schemas/user.py and app/api/auth.py

    The users live in a table of their own; the handlers below pass it
    along. *)

Inductive UserRole := SUPERADMIN | STAFF | INTERN.

Module UserModel.
Record t := mk {
  id : Z;
  email : string;
  hashed_password : string;
  full_name : option string;
  role : UserRole;
  is_active : option bool }.
End UserModel.

Module UserCreate.
Record t := mk {
  email : string;
  full_name : option string;
  role : UserRole;
  is_active : bool;
  password : string }.

(** [password: str = Field(..., min_length=8)] *)
Definition valid (u : t) : bool := (8 <=? String.length (password u))%nat.
End UserCreate.

Module UserUpdate.
Record t := mk {
  email : field (option string);
  full_name : field (option string);
  password : field (option string);
  role : field (option UserRole);
  is_active : field (option bool) }.
End UserUpdate.

Definition user_by_id (user_id : Z) (u : UserModel.t) : bool :=
  UserModel.id u =? user_id.

Definition user_by_email (email : string) (u : UserModel.t) : bool :=
  String.eqb (UserModel.email u) email.

(** The items of [user_data.dict(exclude_unset=True)], and the item
    [update_user] puts in place of the password. *)
Inductive UserAttr :=
| User_email (v : option string)
| User_full_name (v : option string)
| User_password (v : option string)
| User_role (v : option UserRole)
| User_is_active (v : option bool)
| User_hashed_password (v : string).

Definition UserUpdate_dict (user_data : UserUpdate.t) : list UserAttr :=
  item User_email (UserUpdate.email user_data)
  ++ item User_full_name (UserUpdate.full_name user_data)
  ++ item User_password (UserUpdate.password user_data)
  ++ item User_role (UserUpdate.role user_data)
  ++ item User_is_active (UserUpdate.is_active user_data).

(** ["password" in update_data] and [update_data.pop("password")] in one:
    the value under the key, if there is one, and the dict without it. *)
Fixpoint pop_password (update_data : list UserAttr)
  : option (option string) * list UserAttr :=
  match update_data with
  | [] => (None, [])
  | User_password v :: rest => (Some v, rest)
  | a :: rest => let (found, rest') := pop_password rest in (found, a :: rest')
  end.

(** [setattr(db_user, key, value)]; [email], [hashed_password] and [role] are
    [nullable=False].  A [password] attribute is no column. *)
Definition User_setattr (u : option UserModel.t) (a : UserAttr)
  : option UserModel.t :=
  match u with
  | None => None
  | Some u =>
      let '(UserModel.mk id email hashed_password full_name role is_active) := u in
      match a with
      | User_email v =>
          option_map (fun v => UserModel.mk id v hashed_password full_name role is_active)
            v
      | User_full_name v =>
          Some (UserModel.mk id email hashed_password v role is_active)
      | User_password _ => Some u
      | User_role v =>
          option_map (fun v => UserModel.mk id email hashed_password full_name v is_active)
            v
      | User_is_active v =>
          Some (UserModel.mk id email hashed_password full_name role v)
      | User_hashed_password v =>
          Some (UserModel.mk id email v full_name role is_active)
      end
  end.

Section Auth.

(** What the engine checks of the users table when a transaction commits. *)
Variable accepts_users : list UserModel.t -> list UserModel.t -> bool.

(** [get_password_hash] of [app/core/security.py], which is not part of the
    sources at hand: it returns a hash or raises. *)
Variable get_password_hash : option string -> outcome string.

(** The row is built without [is_active]: the column default, true, is what
    gets stored. *)
Definition register_user (user : UserCreate.t) (users : list UserModel.t)
  : outcome UserModel.t * list UserModel.t :=
  match first (user_by_email (UserCreate.email user)) users with
  | Some _ => (Raise (HTTPException 400 "Email already registered"), users)
  | None =>
      match get_password_hash (Some (UserCreate.password user)) with
      | Raise e => (Raise e, users)
      | Return hashed_password =>
          let db_user :=
            UserModel.mk (next_id (map UserModel.id users))
              (UserCreate.email user) hashed_password
              (UserCreate.full_name user) (UserCreate.role user) (Some true) in
          if accepts_users users (users ++ [db_user])
          then (Return db_user, users ++ [db_user])
          else (Raise IntegrityError, users)
      end
  end.

Definition read_users (skip limit : nat) (users : list UserModel.t)
  : outcome (list UserModel.t) * list UserModel.t :=
  (Return (page skip limit users), users).

Definition update_user (user_id : Z) (user_data : UserUpdate.t)
    (users : list UserModel.t) : outcome UserModel.t * list UserModel.t :=
  match first (user_by_id user_id) users with
  | None => (Raise (HTTPException 404 "User not found"), users)
  | Some db_user =>
      let update_data := UserUpdate_dict user_data in
      let hashed :=
        match pop_password update_data with
        | (Some password, rest) =>
            match get_password_hash password with
            | Return hashed_password =>
                Return (rest ++ [User_hashed_password hashed_password])
            | Raise e => Raise e
            end
        | (None, _) => Return update_data
        end in
      match hashed with
      | Raise e => (Raise e, users)
      | Return update_data =>
          match fold_left User_setattr update_data (Some db_user) with
          | None => (Raise IntegrityError, users)
          | Some row =>
              let users' := update_first (user_by_id user_id) (fun _ => row) users in
              if accepts_users users users'
              then (Return row, users')
              else (Raise IntegrityError, users)
          end
      end
  end.

End Auth.

(** What [update_user] may change of a stored user, field by field. *)
Definition User_absent_kept (u : UserUpdate.t) (old new : UserModel.t) : Prop :=
  UserModel.id new = UserModel.id old
  /\ absent_kept (UserUpdate.email u) (UserModel.email old) (UserModel.email new)
  /\ absent_kept (UserUpdate.full_name u)
       (UserModel.full_name old) (UserModel.full_name new)
  /\ absent_kept (UserUpdate.password u)
       (UserModel.hashed_password old) (UserModel.hashed_password new)
  /\ absent_kept (UserUpdate.role u) (UserModel.role old) (UserModel.role new)
  /\ absent_kept (UserUpdate.is_active u)
       (UserModel.is_active old) (UserModel.is_active new).

Definition User_given_stored (get_password_hash : option string -> outcome string)
    (u : UserUpdate.t) (new : UserModel.t) : Prop :=
  given_stored (UserUpdate.email u) (UserModel.email new)
  /\ given_stored_nullable (UserUpdate.full_name u) (UserModel.full_name new)
  /\ (forall password, UserUpdate.password u = Given password ->
        get_password_hash password = Return (UserModel.hashed_password new))
  /\ given_stored (UserUpdate.role u) (UserModel.role new)
  /\ given_stored_nullable (UserUpdate.is_active u) (UserModel.is_active new).

(** For the concrete runs: an engine that refuses no user row, a stand-in
    for the password hash, and two users. *)
Definition accept_all_users (old new : list UserModel.t) : bool := true.

Definition marked_hash (password : option string) : outcome string :=
  match password with
  | Some password => Return ("hash of " ++ password)%string
  | None => Raise (NameError "password")
  end.

Definition admin : UserModel.t :=
  UserModel.mk 1 "admin@example.com" "hash of changeme1" None SUPERADMIN (Some true).

Definition newcomer : UserCreate.t :=
  UserCreate.mk "intern@example.com" (Some "New Intern") INTERN false "s3cretpass".

(** An engine that takes no new inventory row. *)
Definition refuse_inventory (old new : DB) : bool :=
  (List.length (inventory new) =? List.length (inventory old))%nat.

(** A category and a product in it, with nothing else, as the first two
    requests leave the empty store. *)
Definition first_requests : list Request :=
  [POST_categories (CategoryCreate.mk "Tools" None);
   POST_products (ProductCreate.mk 1 "Widget" None None None 2.5 4 None None);
   PUT_inventory 1 (InventoryItemUpdate.mk (Given (Some 10)) Unset
                      (Given (Some IN_STOCK)))].

(** The request line a stored sale item came from. *)
Definition line_of (i : SaleItem.t) : SaleItemCreate.t :=
  SaleItemCreate.mk (SaleItem.product_id i) (SaleItem.quantity i)
    (SaleItem.unit_price i) (SaleItem.total_price i).

(** What [create_sale] never writes of an inventory row: all but the
    quantity. *)
Definition InventoryItem_frame (i : InventoryItem.t)
  : Z * Z * option string * StockStatus :=
  (InventoryItem.id i, InventoryItem.product_id i, InventoryItem.location i,
   InventoryItem.status i).

(** The catalog as [create_sale] finds it: categories, products, and the
    inventory rows but for their quantities. *)
Definition catalog_is (cs : list Category.t) (ps : list Product.t)
    (frames : list (Z * Z * option string * StockStatus)) (db : DB) : Prop :=
  categories db = cs /\ products db = ps
  /\ map InventoryItem_frame (inventory db) = frames.

(** Every inventory row is as [create_product] made it. *)
Definition never_stocked (db : DB) : Prop :=
  Forall (fun i => InventoryItem.quantity i = 0
                   /\ InventoryItem.status i = OUT_OF_STOCK)
    (inventory db).

(** * Proofs *)

(** ** Rows and lookups *)

Lemma next_id_above (ids : list Z) : forall x, In x ids -> x < next_id ids.
Proof.
  unfold next_id. induction ids as [|y ids IH]; cbn [fold_right In]; intros x Hx.
  - contradiction.
  - destruct Hx as [->|Hx]; [lia|]. specialize (IH x Hx). lia.
Qed.

Lemma threshold_rule_in_stock quantity :
  5 <= quantity -> threshold_rule quantity = IN_STOCK.
Proof.
  intros H. unfold threshold_rule.
  destruct (quantity <=? 0) eqn:E1; [apply Z.leb_le in E1; lia|].
  destruct (quantity <? 5) eqn:E2; [apply Z.ltb_lt in E2; lia|reflexivity].
Qed.

Lemma set_quantity_same (i : InventoryItem.t) :
  InventoryItem_set_quantity (InventoryItem.quantity i) i = i.
Proof. destruct i; reflexivity. Qed.

Lemma first_update_same {A} (p : A -> bool) (f : A -> A) (rows : list A) :
  (forall r, p (f r) = p r) ->
  first p (update_first p f rows) = option_map f (first p rows).
Proof.
  intros Hf. unfold first.
  induction rows as [|r rows IH]; simpl; [reflexivity|].
  destruct (p r) eqn:Hp; simpl.
  - rewrite Hf, Hp. reflexivity.
  - rewrite Hp. exact IH.
Qed.

Lemma first_update_other {A} (p q : A -> bool) (f : A -> A) (rows : list A) :
  (forall r, q (f r) = q r) ->
  (forall r, p r = true -> q r = false) ->
  first q (update_first p f rows) = first q rows.
Proof.
  intros Hf Hpq. unfold first.
  induction rows as [|r rows IH]; simpl; [reflexivity|].
  destruct (p r) eqn:Hp; simpl.
  - rewrite Hf, (Hpq r Hp). reflexivity.
  - destruct (q r); [reflexivity|exact IH].
Qed.

Lemma first_appended {A} (p : A -> bool) (rows : list A) (x : A) :
  (forall r, In r rows -> p r = false) -> p x = true ->
  first p (rows ++ [x]) = Some x.
Proof.
  intros Hrows Hx. unfold first.
  induction rows as [|r rows IH]; simpl.
  - rewrite Hx. reflexivity.
  - rewrite (Hrows r (or_introl eq_refl)). apply IH.
    intros r' Hr'. apply Hrows. now right.
Qed.

Lemma filter_none {A} (p : A -> bool) (rows : list A) :
  (forall r, In r rows -> p r = false) -> filter p rows = [].
Proof.
  intros H. induction rows as [|r rows IH]; simpl; [reflexivity|].
  rewrite (H r (or_introl eq_refl)). apply IH. intros r' Hr'. apply H. now right.
Qed.

Lemma In_page {A} (skip limit : nat) (rows : list A) x :
  In x (page skip limit rows) -> In x rows.
Proof.
  unfold page. intros H.
  rewrite <- (firstn_skipn skip rows). apply in_or_app. right.
  rewrite <- (firstn_skipn limit (skipn skip rows)). apply in_or_app. now left.
Qed.

Lemma page_all {A} (limit : nat) (rows : list A) :
  (List.length rows <= limit)%nat -> page 0 limit rows = rows.
Proof. intros H. unfold page. simpl. apply firstn_all2. exact H. Qed.

Lemma update_first_Forall {A} (P : A -> Prop) (p : A -> bool) (f : A -> A) rows :
  (forall r, p r = true -> P r -> P (f r)) ->
  Forall P rows -> Forall P (update_first p f rows).
Proof.
  intros Hf. induction 1 as [|r rows Hr Hrows IH]; simpl; [constructor|].
  destruct (p r) eqn:Hp; constructor; auto.
Qed.

Lemma first_Some_In {A} (p : A -> bool) rows r :
  first p rows = Some r -> In r rows /\ p r = true.
Proof. apply find_some. Qed.

Lemma stock_decrement (item : SaleItemCreate.t) (db : DB) (product_id : Z) :
  stock (decrement_inventory item db) product_id
  = if SaleItemCreate.product_id item =? product_id
    then option_map
           (fun i => InventoryItem_set_quantity
                       (InventoryItem.quantity i - SaleItemCreate.quantity item) i)
           (stock db product_id)
    else stock db product_id.
Proof.
  unfold stock, decrement_inventory; simpl.
  destruct (SaleItemCreate.product_id item =? product_id) eqn:E.
  - apply Z.eqb_eq in E. subst product_id.
    apply first_update_same. intros r; reflexivity.
  - apply first_update_other.
    + intros r; reflexivity.
    + unfold inventory_of. intros r Hr. apply Z.eqb_eq in Hr.
      rewrite Hr. exact E.
Qed.

(** ** The monad *)

Lemma bind_Return {A B} (m : M A) (k : A -> M B) s a s' :
  m s = (Return a, s') -> bind m k s = k a s'.
Proof. unfold bind. intros ->. reflexivity. Qed.

Lemma bind_inv {A B} (m : M A) (k : A -> M B) s b s' :
  bind m k s = (Return b, s') ->
  exists a s1, m s = (Return a, s1) /\ k a s1 = (Return b, s').
Proof.
  unfold bind. destruct (m s) as [[a|e] s1]; [eauto|discriminate].
Qed.

Lemma for_each_app {A} (l1 l2 : list A) (body : A -> M unit) s s1 :
  for_each l1 body s = (Return tt, s1) ->
  for_each (l1 ++ l2) body s = for_each l2 body s1.
Proof.
  revert s. induction l1 as [|x l1 IH]; simpl; intros s H.
  - inversion H; reflexivity.
  - apply bind_inv in H as ([] & s2 & Hx & Hrest).
    rewrite (bind_Return _ _ _ _ _ Hx). auto.
Qed.

Lemma preserves_ret {A} P (a : A) : preserves P (ret a).
Proof. intros s; simpl; auto. Qed.

Lemma preserves_raise {A} P e : preserves P (@raise A e).
Proof. intros s; simpl; auto. Qed.

Lemma preserves_query {A} P (f : DB -> A) : preserves P (query f).
Proof. intros s; simpl; auto. Qed.

Lemma preserves_modify P (f : DB -> DB) :
  (forall db, P db -> P (f db)) -> preserves P (modify f).
Proof. intros Hf s; simpl; auto. Qed.

Lemma preserves_bind {A B} P (m : M A) (k : A -> M B) :
  preserves P m -> (forall a, preserves P (k a)) -> preserves P (bind m k).
Proof.
  intros Hm Hk s Hd Hp. unfold bind.
  specialize (Hm s Hd Hp). destruct (m s) as [[a|e] s1]; simpl in *.
  - apply Hk; tauto.
  - exact Hm.
Qed.

Lemma preserves_for_each {A} P (l : list A) (body : A -> M unit) :
  (forall x, preserves P (body x)) -> preserves P (for_each l body).
Proof.
  intros Hb. induction l as [|x l IH]; simpl.
  - apply preserves_ret.
  - apply preserves_bind; auto.
Qed.

Lemma preserves_run {A} P (m : M A) db :
  preserves P m -> P db -> P (snd (run_request m db)).
Proof.
  intros Hm Hdb. unfold run_request.
  specialize (Hm (mkSession db db false) Hdb Hdb).
  destruct (m _) as [r s]; simpl in *. tauto.
Qed.

Section Engine.

Variable accepts : DB -> DB -> bool.

Lemma preserves_commit P : preserves P (commit accepts).
Proof.
  intros s Hd Hp. unfold commit.
  destruct (negb (dirty s) || accepts (durable s) (pending s)); simpl; auto.
Qed.

Lemma preserves_commit_row {A} P (written : option A) (write : A -> DB -> DB) :
  (forall row db, written = Some row -> P db -> P (write row db)) ->
  preserves P (commit_row accepts written write).
Proof.
  intros Hw. unfold commit_row. destruct written as [row|].
  - apply preserves_bind; [apply preserves_modify; eauto|intros _].
    apply preserves_bind; [apply preserves_commit|intros _; apply preserves_ret].
  - intros s Hd Hp; simpl; auto.
Qed.

End Engine.

(** ** Creating a sale *)

Section SaleProofs.

Variable accepts : DB -> DB -> bool.

Lemma abort_sale_run {A} db_sale e s :
  @abort_sale accepts A db_sale e s
  = if accepts (durable s) (delete_sale db_sale (pending s))
    then (Raise e, mkSession (delete_sale db_sale (pending s))
                     (delete_sale db_sale (pending s)) false)
    else (Raise IntegrityError, mkSession (durable s) (durable s) false).
Proof.
  unfold abort_sale, bind, modify, commit, raise; simpl.
  destruct (accepts _ _); reflexivity.
Qed.

Lemma abort_sale_not_Return {A} db_sale e s (a : A) s' :
  abort_sale accepts db_sale e s <> (Return a, s').
Proof.
  rewrite abort_sale_run. destruct (accepts _ _); discriminate.
Qed.

Lemma step_not_found db_sale item s :
  first (product_by_id (SaleItemCreate.product_id item)) (products (pending s)) = None ->
  sale_item_step accepts db_sale item s
  = abort_sale accepts db_sale
      (HTTPException 404
         ("Product with ID " ++ str (SaleItemCreate.product_id item) ++ " not found")) s.
Proof.
  intros H. unfold sale_item_step, bind, query. rewrite H. reflexivity.
Qed.

(** A line that passes both checks is applied; the request then goes on only
    if at least five pieces are left. *)
Lemma step_decrement db_sale item s product inv :
  first (product_by_id (SaleItemCreate.product_id item)) (products (pending s))
  = Some product ->
  stock (pending s) (SaleItemCreate.product_id item) = Some inv ->
  SaleItemCreate.quantity item <= InventoryItem.quantity inv ->
  sale_item_step accepts db_sale item s
  = (if InventoryItem.quantity inv - SaleItemCreate.quantity item <? 5
     then Raise (NameError "StockStatus") else Return tt,
     mkSession (durable s) (sold db_sale item (pending s)) true).
Proof.
  intros Hp Hi Hq. unfold stock in Hi.
  unfold sale_item_step, bind, query. rewrite Hp, Hi.
  destruct (InventoryItem.quantity inv <? SaleItemCreate.quantity item) eqn:E;
    [apply Z.ltb_lt in E; lia|].
  unfold modify, raise, ret, sold; simpl.
  destruct (_ <=? 0) eqn:E0; destruct (_ <? 5) eqn:E5; try reflexivity.
  apply Z.leb_le in E0. apply Z.ltb_ge in E5. lia.
Qed.

Lemma step_Return db_sale item s s' :
  sale_item_step accepts db_sale item s = (Return tt, s') ->
  exists product inv,
    first (product_by_id (SaleItemCreate.product_id item)) (products (pending s))
    = Some product
    /\ stock (pending s) (SaleItemCreate.product_id item) = Some inv
    /\ SaleItemCreate.quantity item <= InventoryItem.quantity inv
    /\ 5 <= InventoryItem.quantity inv - SaleItemCreate.quantity item
    /\ s' = mkSession (durable s) (sold db_sale item (pending s)) true.
Proof.
  intros H.
  destruct (first (product_by_id (SaleItemCreate.product_id item))
              (products (pending s))) as [product|] eqn:Hp.
  2:{ unfold sale_item_step, bind, query in H. rewrite Hp in H.
      exfalso; eapply abort_sale_not_Return; exact H. }
  destruct (stock (pending s) (SaleItemCreate.product_id item)) as [inv|] eqn:Hi.
  2:{ unfold sale_item_step, bind, query in H. unfold stock in Hi.
      rewrite Hp, Hi in H.
      exfalso; eapply abort_sale_not_Return; exact H. }
  destruct (InventoryItem.quantity inv <? SaleItemCreate.quantity item) eqn:E.
  { unfold sale_item_step, bind, query in H. unfold stock in Hi.
    rewrite Hp, Hi, E in H.
    exfalso; eapply abort_sale_not_Return; exact H. }
  apply Z.ltb_ge in E.
  rewrite (step_decrement _ _ _ _ _ Hp Hi E) in H.
  destruct (_ <? 5) eqn:E5; [discriminate|]. apply Z.ltb_ge in E5.
  inversion H. exists product, inv. auto.
Qed.

(** An accepted line changes the quantity of its product's row and of no
    other product's. *)
Lemma stock_sold db_sale item db product_id :
  stock (sold db_sale item db) product_id
  = if SaleItemCreate.product_id item =? product_id
    then option_map
           (fun i => InventoryItem_set_quantity
                       (InventoryItem.quantity i - SaleItemCreate.quantity item) i)
           (stock db product_id)
    else stock db product_id.
Proof. unfold sold. rewrite stock_decrement. reflexivity. Qed.

(** The loop, when it runs to its end: nothing was committed on the way, and
    every product's row has lost what the lines request of it in total. *)
Lemma loop_Return db_sale items : forall s s',
  for_each items (sale_item_step accepts db_sale) s = (Return tt, s') ->
  durable s' = durable s
  /\ categories (pending s') = categories (pending s)
  /\ products (pending s') = products (pending s)
  /\ sales (pending s') = sales (pending s)
  /\ (forall product_id,
        stock (pending s') product_id
        = option_map
            (fun i => InventoryItem_set_quantity
                        (InventoryItem.quantity i - requested product_id items) i)
            (stock (pending s) product_id))
  /\ (forall item, In item items ->
        exists inv, stock (pending s) (SaleItemCreate.product_id item) = Some inv).
Proof.
  induction items as [|item items IH]; intros s s' H; simpl in H.
  - inversion H; subst s'. repeat split; try tauto; [|intros ? []].
    intros pid. simpl. destruct (stock (pending s) pid) as [i|]; simpl; [|reflexivity].
    rewrite Z.sub_0_r, set_quantity_same. reflexivity.
  - apply bind_inv in H as ([] & s1 & Hstep & Hrest).
    apply step_Return in Hstep as (product & inv & Hp & Hi & Hq & H5 & ->).
    apply IH in Hrest as (Hd & Hc & Hpr & Hs & Hstock & Hall). simpl in *.
    repeat split; auto.
    + intros pid. rewrite Hstock, stock_sold.
      destruct (SaleItemCreate.product_id item =? pid) eqn:E.
      * destruct (stock (pending s) pid) as [i|]; simpl; [|reflexivity].
        f_equal. destruct i; unfold InventoryItem_set_quantity; simpl. f_equal. lia.
      * reflexivity.
    + intros it [<-|Hin]; [eauto|].
      destruct (Hall it Hin) as (inv' & Hinv'). rewrite stock_sold in Hinv'.
      destruct (SaleItemCreate.product_id item =? SaleItemCreate.product_id it);
        [|eauto].
      destruct (stock (pending s) (SaleItemCreate.product_id it)); [eauto|discriminate].
Qed.

(** The handler as a whole: the header commit, the loop, the last commit. *)
Lemma create_sale_run now sale current_user db :
  let db_sale := new_sale now sale current_user db in
  let with_header := add_sale db_sale db in
  run_request (create_sale accepts now sale current_user) db
  = if accepts db with_header then
      match for_each (SaleCreate.items sale) (sale_item_step accepts db_sale)
              (mkSession with_header with_header false) with
      | (Return _, s) =>
          if negb (dirty s) || accepts (durable s) (pending s)
          then (Return (option_map (sale_with_items (pending s))
                          (first (sale_by_id (Sale.id db_sale)) (sales (pending s)))),
                pending s)
          else (Raise IntegrityError, durable s)
      | (Raise e, s) => (Raise e, durable s)
      end
    else (Raise IntegrityError, db).
Proof.
  intros db_sale with_header.
  unfold run_request, create_sale, bind, query, modify, commit; simpl.
  fold db_sale. fold with_header.
  destruct (accepts db with_header); [|reflexivity].
  destruct (for_each _ _ _) as [[[]|e] s]; [|reflexivity].
  destruct (negb (dirty s) || accepts (durable s) (pending s)); reflexivity.
Qed.

Lemma first_new_sale now sale current_user db :
  first (sale_by_id (Sale.id (new_sale now sale current_user db)))
    (sales db ++ [new_sale now sale current_user db])
  = Some (new_sale now sale current_user db).
Proof.
  apply first_appended.
  - intros r Hr. unfold sale_by_id. apply Z.eqb_neq. simpl.
    pose proof (next_id_above (map Sale.id (sales db)) (Sale.id r)
                  (in_map Sale.id _ _ Hr)). lia.
  - unfold sale_by_id. apply Z.eqb_refl.
Qed.

Lemma requested_absent product_id items :
  (forall item, In item items -> SaleItemCreate.product_id item <> product_id) ->
  requested product_id items = 0.
Proof.
  induction items as [|x items IH]; simpl; intros H; [reflexivity|].
  destruct (SaleItemCreate.product_id x =? product_id) eqn:E.
  - apply Z.eqb_eq in E. exfalso. apply (H x); auto.
  - apply IH. intros item Hin. apply H. now right.
Qed.

Lemma requested_single product_id items item :
  filter (fun i => SaleItemCreate.product_id i =? product_id) items = [item] ->
  requested product_id items = SaleItemCreate.quantity item.
Proof.
  induction items as [|x items IH]; simpl; [discriminate|].
  destruct (SaleItemCreate.product_id x =? product_id) eqn:E; intros H.
  - injection H as -> Hrest. rewrite requested_absent; [lia|].
    intros i Hi Heq. apply Z.eqb_eq in Heq.
    assert (Hf : In i (filter (fun i => SaleItemCreate.product_id i =? product_id) items))
      by (apply filter_In; auto).
    rewrite Hrest in Hf. exact Hf.
  - auto.
Qed.

Lemma requested_non_negative product_id items :
  forallb SaleItemCreate.valid items = true -> 0 <= requested product_id items.
Proof.
  induction items as [|x items IH]; simpl; intros H; [lia|].
  apply andb_true_iff in H as [Hx Hrest]. specialize (IH Hrest).
  unfold SaleItemCreate.valid in Hx.
  apply andb_true_iff in Hx as [Hx _]. apply andb_true_iff in Hx as [Hx _].
  apply Z.ltb_lt in Hx.
  destruct (_ =? _); lia.
Qed.

(** After the loop has run to its end, at least five pieces are left of every
    product a line names. *)
Lemma loop_Return_left db_sale items : forall s s',
  for_each items (sale_item_step accepts db_sale) s = (Return tt, s') ->
  forall item, In item items ->
    exists inv, stock (pending s') (SaleItemCreate.product_id item) = Some inv
                /\ 5 <= InventoryItem.quantity inv.
Proof.
  induction items as [|x items IH]; intros s s' H item Hin; [destruct Hin|].
  simpl in H. apply bind_inv in H as ([] & s1 & Hstep & Hrest).
  destruct (existsb (fun i => SaleItemCreate.product_id i
                              =? SaleItemCreate.product_id item) items) eqn:Ex.
  - apply existsb_exists in Ex as (i & Hi & Heq). apply Z.eqb_eq in Heq.
    rewrite <- Heq. eapply IH; eauto.
  - destruct Hin as [->|Hin].
    2:{ eapply IH; eauto. }
    apply step_Return in Hstep as (product & inv & Hp & Hi & Hq & H5 & ->).
    apply loop_Return in Hrest as (_ & _ & _ & _ & Hstock & _).
    rewrite Hstock. cbn [pending]. rewrite stock_sold, Z.eqb_refl, Hi.
    eexists; split; [reflexivity|]. simpl.
    rewrite requested_absent; [lia|].
    intros i Hi' Heq. apply Z.eqb_eq in Heq.
    assert (Hc : existsb (fun i => SaleItemCreate.product_id i
                              =? SaleItemCreate.product_id item) items = true)
      by (apply existsb_exists; eauto).
    congruence.
Qed.

(** C10.  A sale request with no line items commits: given that the engine
    takes the header row (valid header, authenticated caller) and that the
    stored sale items refer to stored sales, the response is the new header
    with zero items, the header carries the caller's [total_amount] as sent,
    and products, inventory and sale items are neither changed nor looked at
    (other products and inventory rows give the same response). *)
Theorem create_sale_without_items now sale current_user db :
  let db_sale := new_sale now sale current_user db in
  SaleCreate.items sale = [] ->
  accepts db (add_sale db_sale db) = true ->
  (forall i, In i (sale_items db) ->
             exists s, In s (sales db) /\ Sale.id s = SaleItem.sale_id i) ->
  run_request (create_sale accepts now sale current_user) db
  = (Return (Some (SaleSchema.mk db_sale [])), add_sale db_sale db)
  /\ Sale.total_amount db_sale = SaleCreate.total_amount sale
  /\ products (add_sale db_sale db) = products db
  /\ inventory (add_sale db_sale db) = inventory db
  /\ sale_items (add_sale db_sale db) = sale_items db
  /\ forall products' inventory',
       let db' := set_inventory inventory' (set_products products' db) in
       accepts db' (add_sale db_sale db') = true ->
       fst (run_request (create_sale accepts now sale current_user) db')
       = Return (Some (SaleSchema.mk db_sale [])).
Proof.
  intros db_sale Hitems Haccepts Hfk.
  assert (Hrun : forall db0,
             sales db0 = sales db -> sale_items db0 = sale_items db ->
             accepts db0 (add_sale db_sale db0) = true ->
             run_request (create_sale accepts now sale current_user) db0
             = (Return (Some (SaleSchema.mk db_sale [])), add_sale db_sale db0)).
  { intros db0 Hs Hsi Hacc. rewrite create_sale_run, Hitems.
    assert (Hnew : new_sale now sale current_user db0 = db_sale)
      by (unfold db_sale, new_sale; rewrite Hs; reflexivity).
    rewrite Hnew, Hacc.
    cbn [for_each ret dirty negb orb pending add_sale set_sales sales].
    rewrite Hs. pose proof (first_new_sale now sale current_user db) as Hfirst.
    fold db_sale in Hfirst. rewrite Hfirst.
    unfold sale_with_items. cbn [option_map].
    replace (sale_items (add_sale db_sale db0)) with (sale_items db)
      by (symmetry; exact Hsi).
    rewrite filter_none; [reflexivity|].
    intros i Hi. destruct (Hfk i Hi) as (r & Hr & Heq).
    unfold items_of_sale. apply Z.eqb_neq. rewrite <- Heq. simpl.
    pose proof (next_id_above (map Sale.id (sales db)) (Sale.id r)
                  (in_map Sale.id _ _ Hr)). lia. }
  repeat split; try reflexivity.
  - apply Hrun; auto.
  - intros ps inv db' Hacc. rewrite Hrun; auto.
Qed.

(** C4.  [StockStatus] is not bound in the sales module.  Whenever a line
    item of a sale is reached (the lines before it went through), passes both
    checks and its decrement leaves fewer than five pieces, the call raises
    [NameError] at the status assignment: the final commit and the deletion
    of the header are not run, the header committed at the start stays, and
    nothing else of the request is stored. *)
Theorem create_sale_NameError now sale current_user db before item after_ s product inv :
  let db_sale := new_sale now sale current_user db in
  let with_header := add_sale db_sale db in
  accepts db with_header = true ->
  SaleCreate.items sale = before ++ item :: after_ ->
  for_each before (sale_item_step accepts db_sale)
    (mkSession with_header with_header false) = (Return tt, s) ->
  first (product_by_id (SaleItemCreate.product_id item)) (products (pending s))
  = Some product ->
  stock (pending s) (SaleItemCreate.product_id item) = Some inv ->
  SaleItemCreate.quantity item <= InventoryItem.quantity inv ->
  InventoryItem.quantity inv - SaleItemCreate.quantity item < 5 ->
  run_request (create_sale accepts now sale current_user) db
  = (Raise (NameError "StockStatus"), with_header)
  /\ sales with_header = sales db ++ [db_sale]
  /\ inventory with_header = inventory db
  /\ sale_items with_header = sale_items db.
Proof.
  intros db_sale with_header Hacc Hitems Hbefore Hp Hi Hq H5.
  repeat split.
  rewrite create_sale_run. fold db_sale. fold with_header.
  rewrite Hacc, Hitems, (for_each_app _ _ _ _ _ Hbefore).
  simpl. unfold bind at 1.
  rewrite (step_decrement _ _ _ _ _ Hp Hi Hq).
  apply Z.ltb_lt in H5. rewrite H5.
  apply loop_Return in Hbefore as (Hd & _). simpl in Hd. rewrite Hd. reflexivity.
Qed.

(** C2, as the code has it.  When a validated sale commits, the inventory row
    of every product a line names has lost what the lines request of that
    product in total (the line's own quantity when no other line names the
    product), and its status is the threshold rule's value for what is left
    whenever it was the rule's value for what was there before. *)
Theorem create_sale_commit now sale current_user db response db' :
  SaleCreate.valid sale = true ->
  run_request (create_sale accepts now sale current_user) db = (Return response, db') ->
  forall item, In item (SaleCreate.items sale) ->
    let product_id := SaleItemCreate.product_id item in
    exists before after_,
      stock db product_id = Some before
      /\ stock db' product_id = Some after_
      /\ InventoryItem.quantity after_
         = InventoryItem.quantity before - requested product_id (SaleCreate.items sale)
      /\ (filter (fun i => SaleItemCreate.product_id i =? product_id)
            (SaleCreate.items sale) = [item] ->
          InventoryItem.quantity after_
          = InventoryItem.quantity before - SaleItemCreate.quantity item)
      /\ (InventoryItem.status before = threshold_rule (InventoryItem.quantity before) ->
          InventoryItem.status after_ = threshold_rule (InventoryItem.quantity after_)).
Proof.
  intros Hvalid Hrun item Hin product_id.
  rewrite create_sale_run in Hrun.
  destruct (accepts db _); [|discriminate].
  destruct (for_each _ _ _) as [[[]|e] s] eqn:Hloop; [|discriminate].
  destruct (negb (dirty s) || accepts (durable s) (pending s)); [|discriminate].
  injection Hrun as _ <-.
  pose proof (loop_Return_left _ _ _ _ Hloop item Hin) as (inv' & Hinv' & H5).
  apply loop_Return in Hloop as (_ & _ & _ & _ & Hstock & Hall).
  destruct (Hall item Hin) as (inv & Hinv). cbn [pending] in Hinv, Hstock.
  change (stock (add_sale (new_sale now sale current_user db) db))
    with (stock db) in *.
  fold product_id in Hinv, Hinv'.
  rewrite Hstock, Hinv in Hinv'. cbn [option_map] in Hinv'.
  injection Hinv' as <-.
  exists inv. eexists. split; [exact Hinv|]. split; [rewrite Hstock, Hinv; reflexivity|].
  cbn [InventoryItem_set_quantity InventoryItem.quantity InventoryItem.status] in *.
  split; [reflexivity|]. split.
  - intros Hone. rewrite (requested_single _ _ _ Hone). reflexivity.
  - intros Hstatus. rewrite Hstatus.
    apply andb_true_iff in Hvalid as [_ Hvalid].
    pose proof (requested_non_negative product_id _ Hvalid).
    rewrite !threshold_rule_in_stock by lia. reflexivity.
Qed.

(** C1, at a request the abort does not undo.  Ten widgets are in stock; the
    first line sells three, the second names product 99, which is not stored.
    Whatever the engine checks, either the request ends in an integrity error
    rather than in the 404 or 400 of the abort, or the 404 is raised with the
    first line's decrement and sale-item row committed by the very commit
    that removes the header. *)
Theorem create_sale_abort_keeps_earlier_lines :
  let db := shop 10 IN_STOCK in
  let sale := order [(1, 3); (99, 1)] in
  let result := run_request (create_sale accepts 100 sale clerk) db in
  fst result = Raise IntegrityError
  \/ (fst result = Raise (HTTPException 404 "Product with ID 99 not found")
      /\ sales (snd result) = sales db
      /\ stock (snd result) 1 = Some (InventoryItem.mk 1 1 7 None IN_STOCK)
      /\ sale_items (snd result) = [SaleItem.mk 1 1 1 3 1 1]).
Proof.
  intros db sale result. unfold result. rewrite create_sale_run.
  destruct (accepts db _) eqn:E0; [|left; reflexivity].
  cbn [SaleCreate.items sale order map for_each].
  erewrite bind_Return.
  2:{ rewrite (step_decrement _ _ _ widget (InventoryItem.mk 1 1 10 None IN_STOCK));
        [reflexivity|reflexivity|reflexivity|simpl; lia]. }
  unfold bind. rewrite step_not_found by reflexivity.
  rewrite abort_sale_run. cbn [durable pending].
  destruct (accepts (add_sale _ _) (delete_sale _ _)); [right|left; reflexivity].
  vm_compute. auto.
Qed.

End SaleProofs.

(** ** Quantities below zero *)

Lemma update_first_Forall_first {A} (P : A -> Prop) (p : A -> bool) (f : A -> A) rows :
  (forall r, first p rows = Some r -> P (f r)) ->
  Forall P rows -> Forall P (update_first p f rows).
Proof.
  unfold first. intros Hf H. induction H as [|r rows Hr Hrows IH]; simpl; [constructor|].
  simpl in Hf. destruct (p r) eqn:Hp.
  - constructor; auto.
  - constructor; auto.
Qed.

Lemma preserves_query_bind {A B} (P : DB -> Prop) (f : DB -> A) (k : A -> M B) s :
  P (durable (snd (k (f (pending s)) s))) /\ P (pending (snd (k (f (pending s)) s))) ->
  P (durable (snd (bind (query f) k s))) /\ P (pending (snd (bind (query f) k s))).
Proof. intros H. exact H. Qed.

Lemma non_negative_filter (p : InventoryItem.t -> bool) db :
  non_negative db -> non_negative (set_inventory (filter p (inventory db)) db).
Proof.
  unfold non_negative; simpl. rewrite !Forall_forall.
  intros H i Hi. apply filter_In in Hi. apply H. tauto.
Qed.

Lemma non_negative_add i db :
  0 <= InventoryItem.quantity i -> non_negative db -> non_negative (add_inventory i db).
Proof.
  unfold non_negative; simpl. intros Hi H. apply Forall_app. split; auto.
Qed.

Lemma non_negative_sold db_sale item db inv :
  stock db (SaleItemCreate.product_id item) = Some inv ->
  SaleItemCreate.quantity item <= InventoryItem.quantity inv ->
  non_negative db -> non_negative (sold db_sale item db).
Proof.
  unfold non_negative, stock, sold; simpl. intros Hi Hq H.
  apply update_first_Forall_first; [|exact H].
  intros r Hr. rewrite Hr in Hi. injection Hi as ->. simpl. lia.
Qed.

Section Invariant.

Variable accepts : DB -> DB -> bool.

Ltac through :=
  repeat first
    [ apply preserves_ret | apply preserves_raise | apply preserves_query
    | apply preserves_commit
    | apply preserves_bind; [|intros ?] ].

Lemma create_category_non_negative c :
  preserves non_negative (create_category accepts c).
Proof.
  unfold create_category. through. apply preserves_modify. auto.
Qed.

Lemma update_category_non_negative id c :
  preserves non_negative (update_category accepts id c).
Proof.
  unfold update_category. through.
  destruct a; through. apply preserves_commit_row. auto.
Qed.

Lemma delete_category_non_negative id :
  preserves non_negative (delete_category accepts id).
Proof.
  unfold delete_category. through.
  destruct a; through. apply preserves_modify. auto.
Qed.

Lemma create_product_non_negative p :
  preserves non_negative (create_product accepts p).
Proof.
  unfold create_product.
  apply preserves_bind; [apply preserves_query|intros [category|]];
    [|apply preserves_raise].
  apply preserves_bind; [apply preserves_query|intros db_product].
  apply preserves_bind; [apply preserves_modify; auto|intros _].
  apply preserves_bind; [apply preserves_commit|intros _].
  intros s Hd Hp. apply preserves_query_bind.
  apply preserves_bind; [|intros ?; through|exact Hd|exact Hp].
  apply preserves_modify. intros db. apply non_negative_add. simpl. lia.
Qed.

Lemma update_product_non_negative id p :
  preserves non_negative (update_product accepts id p).
Proof.
  unfold update_product. through.
  destruct a; through. destruct a; through. apply preserves_commit_row. auto.
Qed.

Lemma delete_product_non_negative id :
  preserves non_negative (delete_product accepts id).
Proof.
  unfold delete_product. through.
  destruct a; through.
  - apply preserves_modify. intros db. apply non_negative_filter.
  - apply preserves_modify. auto.
Qed.

Lemma update_inventory_non_negative id inventory_data :
  preserves non_negative (update_inventory id inventory_data).
Proof.
  unfold update_inventory. through. destruct a; through.
Qed.

Lemma abort_sale_non_negative {A} db_sale e :
  preserves non_negative (@abort_sale accepts A db_sale e).
Proof.
  unfold abort_sale. through. apply preserves_modify. auto.
Qed.

Lemma sale_item_step_non_negative db_sale item :
  preserves non_negative (sale_item_step accepts db_sale item).
Proof.
  intros s Hd Hp.
  destruct (first (product_by_id (SaleItemCreate.product_id item))
              (products (pending s))) as [product|] eqn:Hprod.
  2:{ rewrite step_not_found by exact Hprod. apply abort_sale_non_negative; auto. }
  destruct (stock (pending s) (SaleItemCreate.product_id item)) as [inv|] eqn:Hi.
  2:{ unfold sale_item_step, bind, query. unfold stock in Hi. rewrite Hprod, Hi.
      apply abort_sale_non_negative; auto. }
  destruct (InventoryItem.quantity inv <? SaleItemCreate.quantity item) eqn:E.
  { unfold sale_item_step, bind, query. unfold stock in Hi. rewrite Hprod, Hi, E.
    apply abort_sale_non_negative; auto. }
  apply Z.ltb_ge in E. rewrite (step_decrement _ _ _ _ _ _ Hprod Hi E). simpl.
  split; [exact Hd|]. eapply non_negative_sold; eauto.
Qed.

(** Every check of [create_sale] sees what the lines before it left, so the
    handler keeps all quantities at or above zero, however it ends. *)
Lemma create_sale_non_negative now sale current_user :
  preserves non_negative (create_sale accepts now sale current_user).
Proof.
  unfold create_sale. through.
  - apply preserves_modify. auto.
  - apply preserves_for_each. intros item. apply sale_item_step_non_negative.
Qed.

Lemma serve_non_negative r db :
  non_negative db -> non_negative (serve accepts r db).
Proof.
  intros Hdb. unfold serve. destruct (valid_request r); [|exact Hdb].
  destruct r; apply preserves_run; auto.
  - apply create_category_non_negative.
  - apply update_category_non_negative.
  - apply delete_category_non_negative.
  - apply create_product_non_negative.
  - apply update_product_non_negative.
  - apply delete_product_non_negative.
  - apply update_inventory_non_negative.
  - apply create_sale_non_negative.
Qed.

(** C3.  With requests served one at a time, every inventory quantity is at
    or above zero in every store reachable from one where that holds (the
    empty store is one): [create_sale] checks each line against what the
    earlier lines of the same sale left, also when they name the same
    product, and no handler lowers a quantity otherwise. *)
Theorem quantities_never_negative start db :
  non_negative start -> reachable accepts start db -> non_negative db.
Proof.
  intros Hstart. induction 1 as [|r db Hdb IH].
  - exact Hstart.
  - apply serve_non_negative. exact IH.
Qed.

End Invariant.

(** ** Products and their inventory rows *)

Lemma first_filter_negb {A} (p : A -> bool) rows :
  first p (filter (fun r => negb (p r)) rows) = None.
Proof.
  unfold first. induction rows as [|r rows IH]; simpl; [reflexivity|].
  destruct (p r) eqn:E; simpl; [exact IH|]. rewrite E. exact IH.
Qed.

Lemma first_None_filter {A} (p : A -> bool) rows :
  first p rows = None <-> filter p rows = [].
Proof.
  unfold first. induction rows as [|r rows IH]; simpl; [tauto|].
  destruct (p r); [split; discriminate|exact IH].
Qed.

(** C5, as the code has it.  [delete_product] removes the product's inventory
    rows itself, before the product, and commits both together: when the
    product is stored and the engine takes the deletion, the call ends well,
    neither the product nor an inventory row of it is left, and the rows of
    other products and all other tables are as before. *)
Theorem delete_product_removes_inventory accepts product_id db product :
  first (product_by_id product_id) (products db) = Some product ->
  accepts db (without_product product_id db) = true ->
  let db' := without_product product_id db in
  run_request (delete_product accepts product_id) db
  = (Return "Product deleted successfully", db')
  /\ first (product_by_id product_id) (products db') = None
  /\ stock db' product_id = None
  /\ (forall p, In p (products db') <-> In p (products db) /\ Product.id p <> product_id)
  /\ (forall i, In i (inventory db')
                <-> In i (inventory db) /\ InventoryItem.product_id i <> product_id)
  /\ categories db' = categories db
  /\ sales db' = sales db
  /\ sale_items db' = sale_items db.
Proof.
  intros Hp Hacc db'.
  assert (Hid : Product.id product = product_id).
  { apply first_Some_In in Hp as [_ Hp]. apply Z.eqb_eq in Hp. exact Hp. }
  split.
  { unfold run_request, delete_product, bind, query, modify, commit; simpl.
    rewrite Hp. simpl. rewrite Hid. fold (without_product product_id db).
    rewrite Hacc. reflexivity. }
  split; [apply first_filter_negb|].
  split; [apply (first_filter_negb (inventory_of product_id))|].
  split.
  { intros p. unfold db', without_product; simpl. rewrite filter_In.
    unfold product_by_id. rewrite negb_true_iff, Z.eqb_neq. tauto. }
  split.
  { intros i. unfold db', without_product; simpl. rewrite filter_In.
    unfold inventory_of. rewrite negb_true_iff, Z.eqb_neq. tauto. }
  auto.
Qed.

(** C9.  When [create_product] ends well, the store it leaves holds the new
    product and an inventory row for it with quantity 0 and status
    [out_of_stock], written by the same call; where every stored inventory row
    belonged to a stored product, that row is the one a lookup finds. *)
Theorem create_product_initial_inventory accepts product db db_product db' :
  run_request (create_product accepts product) db = (Return db_product, db') ->
  In db_product (products db')
  /\ (exists row,
        In row (inventory db')
        /\ InventoryItem.product_id row = Product.id db_product
        /\ InventoryItem.quantity row = 0
        /\ InventoryItem.status row = OUT_OF_STOCK)
  /\ ((forall i, In i (inventory db) ->
         exists p, In p (products db) /\ Product.id p = InventoryItem.product_id i) ->
      exists row,
        stock db' (Product.id db_product) = Some row
        /\ InventoryItem.quantity row = 0
        /\ InventoryItem.status row = OUT_OF_STOCK).
Proof.
  unfold run_request, create_product, bind, query, modify, commit; simpl.
  destruct (first _ (categories db)); [|discriminate]. simpl.
  destruct (accepts db _); [|discriminate]. simpl.
  destruct (accepts _ _); [|discriminate]. simpl.
  intros H. injection H as <- <-. simpl.
  split; [apply in_or_app; right; left; reflexivity|].
  split.
  - eexists. split; [apply in_or_app; right; left; reflexivity|]. auto.
  - intros Hfk. exists (initial_inventory (next_id (map Product.id (products db))) db).
    split; [|split; reflexivity].
    unfold stock. simpl. apply first_appended.
    + intros i Hi. destruct (Hfk i Hi) as (p & Hp & Heq).
      unfold inventory_of. apply Z.eqb_neq. rewrite <- Heq.
      pose proof (next_id_above (map Product.id (products db)) (Product.id p)
                    (in_map Product.id _ _ Hp)). lia.
    + unfold inventory_of. apply Z.eqb_refl.
Qed.

(** C8.  A stored product without an inventory row reads as stock 0 and
    status [out_of_stock]: [read_product] returns it so, and [read_products]
    always returns, shows every entry of that product so, and lists it when
    it passes the filters and the page takes all rows. *)
Theorem missing_inventory_reads_as_out_of_stock ilike db product_id product :
  first (product_by_id product_id) (products db) = Some product ->
  stock db product_id = None ->
  run_request (read_product product_id) db
  = (Return (ProductWithStock.mk product 0 OUT_OF_STOCK), db)
  /\ forall skip limit category_id search,
       exists listing,
         run_request (read_products ilike skip limit category_id search) db
         = (Return listing, db)
         /\ (forall e, In e listing ->
               Product.id (ProductWithStock.product e) = product_id ->
               ProductWithStock.current_stock e = 0
               /\ ProductWithStock.status e = OUT_OF_STOCK)
         /\ (skip = 0%nat -> (List.length (outer_join db) <= limit)%nat ->
             product_filter ilike category_id search product = true ->
             In (ProductWithStock.mk product 0 OUT_OF_STOCK) listing).
Proof.
  intros Hp Hs. split.
  { unfold run_request, read_product, bind, query, ret; simpl.
    unfold stock in Hs. rewrite Hp. simpl. rewrite Hs. reflexivity. }
  intros skip limit category_id search. eexists. split; [reflexivity|].
  assert (Hjoin : forall r, In r (outer_join db) ->
            Product.id (fst r) = product_id -> snd r = None).
  { intros [p i] Hr Hid. simpl in *. unfold outer_join in Hr.
    apply in_flat_map in Hr as (p' & Hp' & Hr).
    destruct (filter (inventory_of (Product.id p')) (inventory db)) eqn:Hf.
    - destruct Hr as [Hr|[]]. now inversion Hr.
    - exfalso. apply in_map_iff in Hr as (i' & Hr & _). inversion Hr; subst p'.
      rewrite Hid in Hf. apply first_None_filter in Hs. congruence. }
  split.
  - intros e He Hid. apply in_map_iff in He as (r & <- & Hr).
    apply In_page, filter_In in Hr as [Hr _].
    destruct r as [p i]; simpl in *.
    assert (Hid' : Product.id p = product_id) by (destruct i; exact Hid).
    pose proof (Hjoin (p, i) Hr Hid') as Hnone. simpl in Hnone. subst i. auto.
  - intros -> Hlimit Hfilter.
    apply in_map_iff. exists (product, None). split; [reflexivity|].
    rewrite page_all.
    2:{ etransitivity; [apply filter_length_le|exact Hlimit]. }
    apply filter_In. split; [|exact Hfilter].
    unfold outer_join. apply in_flat_map. exists product.
    apply first_Some_In in Hp as [Hin Hid]. split; [exact Hin|].
    apply Z.eqb_eq in Hid. rewrite Hid.
    apply first_None_filter in Hs. cbn [pending]. rewrite Hs. now left.
Qed.

(** ** Partial updates *)

Lemma first_update_replace {A} (p : A -> bool) (row old : A) rows :
  first p rows = Some old -> p row = true ->
  first p (update_first p (fun _ => row) rows) = Some row.
Proof.
  unfold first. intros H Hrow. induction rows as [|r rows IH]; simpl in *; [discriminate|].
  destruct (p r) eqn:Hp; simpl.
  - rewrite Hrow. reflexivity.
  - rewrite Hp. auto.
Qed.

Lemma Product_setattr_None attrs : fold_left Product_setattr attrs None = None.
Proof. induction attrs as [|a attrs IH]; simpl; auto. Qed.

(** The [setattr] loops over the request's items are the partial updates. *)
Lemma Category_setattr_partial category c :
  fold_left Category_setattr (CategoryUpdate_dict category) (Some c)
  = partial_update_category category c.
Proof.
  destruct category as [[|[name|]] [|description]], c; reflexivity.
Qed.

Ltac next_item f :=
  destruct f as [|[?|]]; cbn [item app fold_left Product_setattr option_map assign
                                assign_nullable];
  try (rewrite Product_setattr_None; reflexivity).

Ltac next_nullable_item f :=
  destruct f as [|?]; cbn [item app fold_left Product_setattr option_map assign
                             assign_nullable].

Lemma Product_setattr_partial product p :
  fold_left Product_setattr (ProductUpdate_dict product) (Some p)
  = partial_update_product product p.
Proof.
  destruct product as [f1 f2 f3 f4 f5 f6 f7 f8 f9], p.
  unfold ProductUpdate_dict, partial_update_product.
  cbn [ProductUpdate.category_id ProductUpdate.name ProductUpdate.description
         ProductUpdate.model_number ProductUpdate.specifications
         ProductUpdate.cost_price ProductUpdate.selling_price ProductUpdate.barcode
         ProductUpdate.image_url Product.id Product.category_id Product.name
         Product.description Product.model_number Product.specifications
         Product.cost_price Product.selling_price Product.barcode Product.image_url].
  next_item f1; next_item f2; next_nullable_item f3; next_nullable_item f4;
    next_nullable_item f5; next_item f6; next_item f7; next_nullable_item f8;
    next_nullable_item f9; reflexivity.
Qed.

Ltac field_facts :=
  repeat split;
  repeat match goal with
    | |- absent_kept _ _ _ => intros ?
    | |- given_stored _ _ => intros ? ?
    | |- given_stored_nullable _ _ => intros ? ?
    end;
  try discriminate; try (subst; reflexivity); try congruence.

Lemma partial_update_category_spec u old new :
  partial_update_category u old = Some new ->
  Category_absent_kept u old new /\ Category_given_stored u new.
Proof.
  destruct u as [[|[name|]] description], old; unfold partial_update_category;
    cbn; intros H; inversion H; subst;
    unfold Category_absent_kept, Category_given_stored; cbn; field_facts.
Qed.

Lemma partial_update_product_spec u old new :
  partial_update_product u old = Some new ->
  Product_absent_kept u old new /\ Product_given_stored u new.
Proof.
  destruct u as [[|[c|]] [|[n|]] f3 f4 f5 [|[cp|]] [|[sp|]] f8 f9], old;
    unfold partial_update_product;
    cbn; intros H; inversion H; subst;
    unfold Product_absent_kept, Product_given_stored; cbn; field_facts.
Qed.

(** [update_inventory] leaves the store as it finds it. *)
Lemma update_inventory_stores_nothing id inventory_data db :
  snd (run_request (update_inventory id inventory_data) db) = db.
Proof.
  unfold run_request, update_inventory, bind, query, raise, ret; simpl.
  destruct (first _ (products db)); reflexivity.
Qed.

Lemma update_inventory_partial :
  keeps_absent_fields update_inventory stock Inventory_absent_kept.
Proof.
  intros id u db old response db' Hold Hrun.
  pose proof (update_inventory_stores_nothing id u db) as Hsame.
  rewrite Hrun in Hsame. simpl in Hsame. subst db'.
  exists old. split; [exact Hold|].
  unfold Inventory_absent_kept, absent_kept. repeat split; auto.
Qed.

Section Updates.

Variable accepts : DB -> DB -> bool.

Lemma commit_row_run {A} (written : option A) (write : A -> DB -> DB) s :
  commit_row accepts written write s
  = match written with
    | None => (Raise IntegrityError, mkSession (durable s) (durable s) false)
    | Some row =>
        if accepts (durable s) (write row (pending s))
        then (Return row,
              mkSession (write row (pending s)) (write row (pending s)) false)
        else (Raise IntegrityError, mkSession (durable s) (durable s) false)
    end.
Proof.
  destruct written as [row|]; [|reflexivity].
  unfold commit_row, bind, modify, commit, ret; simpl.
  destruct (accepts _ _); reflexivity.
Qed.

(** The common end of the three update handlers. *)
Lemma commit_row_partial {R} (lookup : DB -> option R) (write : R -> DB -> DB)
    (written : option R) (absent : R -> R -> Prop) (given : R -> Prop)
    old db response s' :
  lookup db = Some old ->
  commit_row accepts written write (mkSession db db false) = (response, s') ->
  (forall row, written = Some row ->
               lookup (write row db) = Some row /\ absent old row /\ given row) ->
  absent old old ->
  exists new,
    lookup (durable s') = Some new
    /\ absent old new
    /\ (forall r, response = Return r -> r = new /\ given new).
Proof.
  intros Hold Hrun Hrow Hrefl. rewrite commit_row_run in Hrun. simpl in Hrun.
  destruct written as [row|].
  - destruct (Hrow row eq_refl) as (Hl & Ha & Hg).
    destruct (accepts db (write row db)); inversion Hrun; subst; simpl.
    + exists row. split; [exact Hl|]. split; [exact Ha|].
      intros r Hr. injection Hr as <-. auto.
    + exists old. split; [exact Hold|]. split; [exact Hrefl|]. discriminate.
  - inversion Hrun; subst; simpl.
    exists old. split; [exact Hold|]. split; [exact Hrefl|]. discriminate.
Qed.

Lemma update_category_partial :
  updates_partially (update_category accepts)
    (fun db id => first (category_by_id id) (categories db))
    Category_absent_kept Category_given_stored.
Proof.
  intros id u db old response db' Hold Hrun.
  unfold run_request, update_category, bind, query in Hrun. cbn [pending] in Hrun.
  rewrite Hold, Category_setattr_partial in Hrun.
  destruct (commit_row _ _ _ _) as [r s] eqn:Hc. inversion Hrun; subst.
  eapply (commit_row_partial (fun db => first (category_by_id id) (categories db)));
    eauto.
  - intros row Hrow. apply partial_update_category_spec in Hrow as [Ha Hg].
    split; [|auto]. simpl. eapply first_update_replace; eauto.
    apply first_Some_In in Hold as [_ Hold]. unfold category_by_id in *.
    destruct Ha as (-> & _). exact Hold.
  - unfold Category_absent_kept, absent_kept. auto.
Qed.

Lemma update_product_partial :
  updates_partially (update_product accepts)
    (fun db id => first (product_by_id id) (products db))
    Product_absent_kept Product_given_stored.
Proof.
  intros id u db old response db' Hold Hrun.
  unfold run_request, update_product, bind, query in Hrun. cbn [pending] in Hrun.
  rewrite Hold in Hrun. cbn [pending] in Hrun.
  assert (Hrefl : Product_absent_kept u old old)
    by (unfold Product_absent_kept, absent_kept; repeat split; auto).
  destruct (category_missing u db).
  { inversion Hrun; subst. exists old.
    split; [exact Hold|]. split; [exact Hrefl|]. discriminate. }
  rewrite Product_setattr_partial in Hrun.
  destruct (commit_row _ _ _ _) as [r s] eqn:Hc. inversion Hrun; subst.
  eapply (commit_row_partial (fun db => first (product_by_id id) (products db)));
    eauto.
  intros row Hrow. apply partial_update_product_spec in Hrow as [Ha Hg].
  split; [|auto]. simpl. eapply first_update_replace; eauto.
  apply first_Some_In in Hold as [_ Hold]. unfold product_by_id in *.
  destruct Ha as (-> & _). exact Hold.
Qed.

(** C6.  The category and product update handlers change only the fields
    the request gives: for a stored entity, every field the request leaves
    out has the value it had, for every combination of given and absent
    fields and however the call ends; when the call returns, the given fields
    are stored as given.  The inventory update handler, as written, stores
    nothing, so there too every absent field keeps its value. *)
Theorem updates_are_partial :
  updates_partially (update_category accepts)
    (fun db id => first (category_by_id id) (categories db))
    Category_absent_kept Category_given_stored
  /\ updates_partially (update_product accepts)
       (fun db id => first (product_by_id id) (products db))
       Product_absent_kept Product_given_stored
  /\ keeps_absent_fields update_inventory stock Inventory_absent_kept.
Proof.
  split; [apply update_category_partial|].
  split; [apply update_product_partial|apply update_inventory_partial].
Qed.

End Updates.

(** ** Listing sales *)
















(** * Concrete runs *)

(** The spec's first example: ten in stock, three sold, seven left and still
    [in_stock]. *)
Lemma create_sale_commit_witness :
  let sale := order [(1, 3)] in
  let db' := snd (run_request (create_sale accept_all 100 sale clerk)
                    (shop 10 IN_STOCK)) in
  SaleCreate.valid sale = true
  /\ exists before after_,
       stock (shop 10 IN_STOCK) 1 = Some before
       /\ stock db' 1 = Some after_
       /\ InventoryItem.quantity after_
          = InventoryItem.quantity before - requested 1 (SaleCreate.items sale)
       /\ (filter (fun i => SaleItemCreate.product_id i =? 1) (SaleCreate.items sale)
           = [SaleItemCreate.mk 1 3 1 1] ->
           InventoryItem.quantity after_ = InventoryItem.quantity before - 3)
       /\ (InventoryItem.status before = threshold_rule (InventoryItem.quantity before) ->
           InventoryItem.status after_ = threshold_rule (InventoryItem.quantity after_)).
Proof.
  split; [reflexivity|].
  eapply (create_sale_commit accept_all 100 (order [(1, 3)]) clerk (shop 10 IN_STOCK)
            _ _ eq_refl eq_refl (SaleItemCreate.mk 1 3 1 1)).
  left; reflexivity.
Defined.

(** Two lines of the same product: each line alone would leave 17, the sale
    leaves 13. *)
Lemma create_sale_commit_counterexample : ~ commits_line_by_line accept_all.
Proof.
  intros H.
  destruct (H 100 (order [(1, 3); (1, 4)]) clerk (shop 20 IN_STOCK) _ _
              eq_refl eq_refl (SaleItemCreate.mk 1 3 1 1) (or_introl eq_refl))
    as (before & after_ & Hb & Ha & Hq & _).
  vm_compute in Hb, Ha. injection Hb as <-. injection Ha as <-.
  vm_compute in Hq. discriminate.
Qed.

(** A row whose status lags behind its quantity keeps that status: the loop
    never assigns [in_stock]. *)
Example create_sale_keeps_stale_status :
  stock (snd (run_request (create_sale accept_all 100 (order [(1, 3)]) clerk)
                (shop 10 OUT_OF_STOCK))) 1
  = Some (InventoryItem.mk 1 1 7 None OUT_OF_STOCK)
  /\ threshold_rule 7 = IN_STOCK.
Proof. split; reflexivity. Qed.

(** The spec's second example: fifteen requested of ten; nothing is kept. *)
Example create_sale_insufficient :
  run_request (create_sale accept_all 100 (order [(1, 15)]) clerk) (shop 10 IN_STOCK)
  = (Raise (HTTPException 400 "Insufficient inventory for product Widget"),
     shop 10 IN_STOCK).
Proof. reflexivity. Qed.

Lemma create_sale_NameError_witness :
  run_request (create_sale accept_all 100 (order [(1, 6)]) clerk) (shop 10 IN_STOCK)
  = (Raise (NameError "StockStatus"),
     add_sale (new_sale 100 (order [(1, 6)]) clerk (shop 10 IN_STOCK))
       (shop 10 IN_STOCK))
  /\ 10 - 6 < 5.
Proof.
  split; [|lia].
  apply (create_sale_NameError accept_all 100 (order [(1, 6)]) clerk (shop 10 IN_STOCK)
           [] (SaleItemCreate.mk 1 6 1 1) [] _ widget (InventoryItem.mk 1 1 10 None IN_STOCK)
           eq_refl eq_refl eq_refl eq_refl eq_refl); simpl; lia.
Defined.

Lemma create_sale_without_items_witness :
  run_request (create_sale accept_all 100 (order []) clerk) (shop 10 IN_STOCK)
  = (Return (Some (SaleSchema.mk
                     (new_sale 100 (order []) clerk (shop 10 IN_STOCK)) [])),
     add_sale (new_sale 100 (order []) clerk (shop 10 IN_STOCK)) (shop 10 IN_STOCK)).
Proof.
  apply (create_sale_without_items accept_all 100 (order []) clerk (shop 10 IN_STOCK)
           eq_refl eq_refl).
  intros i [].
Defined.

Lemma quantities_never_negative_witness :
  non_negative (shop 10 IN_STOCK)
  /\ non_negative
       (fold_left (fun db r => serve accept_all r db) four_requests (shop 10 IN_STOCK))
  /\ non_negative
       (serve accept_all
          (POST_products (ProductCreate.mk 1 "Widget" None None None 2.5 4 None None))
          (serve accept_all (POST_categories (CategoryCreate.mk "Tools" None))
             empty_db)).
Proof.
  assert (Hstart : non_negative (shop 10 IN_STOCK))
    by (repeat constructor; simpl; lia).
  split; [exact Hstart|]. split.
  - apply (quantities_never_negative accept_all (shop 10 IN_STOCK)); [exact Hstart|].
    simpl. repeat apply reachable_serve. apply reachable_start.
  - apply (quantities_never_negative accept_all empty_db); [constructor|].
    repeat apply reachable_serve. apply reachable_start.
Defined.

Lemma delete_product_removes_inventory_witness :
  run_request (delete_product accept_all 1) (shop 10 IN_STOCK)
  = (Return "Product deleted successfully", mkDB [tools] [] [] [] []).
Proof.
  apply (delete_product_removes_inventory accept_all 1 (shop 10 IN_STOCK) widget
           eq_refl eq_refl).
Defined.

(** The product and its inventory row are both stored; one call removes
    both. *)
Lemma delete_product_counterexample : ~ delete_needs_inventory_gone accept_all.
Proof.
  intros H.
  apply (H 1 (shop 10 IN_STOCK) (InventoryItem.mk 1 1 10 None IN_STOCK)
           "Product deleted successfully" (mkDB [tools] [] [] [] [])
           eq_refl eq_refl).
  split; reflexivity.
Qed.

Lemma updates_are_partial_witness :
  exists new,
    first (category_by_id 1)
      (categories (snd (run_request
                          (update_category accept_all 1
                             (CategoryUpdate.mk (Given (Some "Hardware")) Unset))
                          (shop 10 IN_STOCK))))
    = Some new
    /\ Category.name new = "Hardware"
    /\ Category.description new = Category.description tools.
Proof.
  destruct (proj1 (updates_are_partial accept_all) 1
              (CategoryUpdate.mk (Given (Some "Hardware")) Unset)
              (shop 10 IN_STOCK) tools _ _ eq_refl eq_refl)
    as (new & Hnew & (_ & _ & Hdescription) & Hgiven).
  exists new. split; [exact Hnew|].
  destruct (Hgiven _ eq_refl) as (_ & Hname & _).
  split.
  - specialize (Hname _ eq_refl). now injection Hname as ->.
  - apply Hdescription. reflexivity.
Defined.

Lemma missing_inventory_witness :
  run_request (read_product 1) unstocked
  = (Return (ProductWithStock.mk widget 0 OUT_OF_STOCK), unstocked)
  /\ run_request (read_products ilike_contains 0 100 None (Some "wid")) unstocked
     = (Return [ProductWithStock.mk widget 0 OUT_OF_STOCK], unstocked).
Proof.
  split.
  - apply (missing_inventory_reads_as_out_of_stock ilike_contains unstocked 1 widget
             eq_refl eq_refl).
  - reflexivity.
Defined.

Lemma create_product_initial_inventory_witness :
  exists row,
    In row (inventory
              (snd (run_request
                      (create_product accept_all
                         (ProductCreate.mk 1 "Hammer" None None None 2.5 4 None None))
                      (shop 10 IN_STOCK))))
    /\ InventoryItem.product_id row = 2
    /\ InventoryItem.quantity row = 0
    /\ InventoryItem.status row = OUT_OF_STOCK.
Proof.
  apply (create_product_initial_inventory accept_all
           (ProductCreate.mk 1 "Hammer" None None None 2.5 4 None None)
           (shop 10 IN_STOCK) _ _ eq_refl).
Defined.


(** * Further properties of the handlers *)

(** ** Sales *)

Lemma filter_all {A} (p : A -> bool) (rows : list A) :
  (forall r, In r rows -> p r = true) -> filter p rows = rows.
Proof.
  intros H. induction rows as [|r rows IH]; simpl; [reflexivity|].
  rewrite (H r (or_introl eq_refl)). f_equal. apply IH.
  intros r' Hr'. apply H. now right.
Qed.

Lemma first_app_old {A} (p : A -> bool) (rows rows' : list A) x :
  first p rows = Some x -> first p (rows ++ rows') = Some x.
Proof.
  unfold first. induction rows as [|r rows IH]; simpl; [discriminate|].
  destruct (p r); auto.
Qed.

(** Removing the header that was just added gives the store back. *)
Lemma delete_new_sale now sale current_user db :
  delete_sale (new_sale now sale current_user db)
    (add_sale (new_sale now sale current_user db) db) = db.
Proof.
  unfold delete_sale, add_sale, set_sales. cbn [sales categories products inventory sale_items].
  rewrite filter_app. cbn [filter].
  unfold sale_by_id at 2. rewrite Z.eqb_refl. cbn [negb].
  rewrite filter_all, app_nil_r; [destruct db; reflexivity|].
  intros r Hr. unfold sale_by_id. apply negb_true_iff, Z.eqb_neq.
  pose proof (next_id_above (map Sale.id (sales db)) (Sale.id r)
                (in_map Sale.id _ _ Hr)).
  cbn [new_sale Sale.id]. lia.
Qed.

Section SaleProperties.

Variable accepts : DB -> DB -> bool.

Lemma step_insufficient db_sale item s product :
  first (product_by_id (SaleItemCreate.product_id item)) (products (pending s))
  = Some product ->
  (forall inv, stock (pending s) (SaleItemCreate.product_id item) = Some inv ->
               InventoryItem.quantity inv < SaleItemCreate.quantity item) ->
  sale_item_step accepts db_sale item s
  = abort_sale accepts db_sale
      (HTTPException 400 ("Insufficient inventory for product " ++ Product.name product))
      s.
Proof.
  intros Hp Hq. unfold sale_item_step, bind, query. rewrite Hp.
  unfold stock in Hq.
  destruct (first _ (inventory (pending s))) as [inv|]; [|reflexivity].
  specialize (Hq inv eq_refl). apply Z.ltb_lt in Hq. rewrite Hq. reflexivity.
Qed.

(** A sale whose first line fails is undone in full: the product is not
    stored (404 naming its id), or it has no inventory row or fewer pieces
    than asked (400 naming the product); the header is deleted again and the
    store is as it was. *)
Theorem create_sale_first_line_abort now sale current_user db item rest :
  let db_sale := new_sale now sale current_user db in
  let product_id := SaleItemCreate.product_id item in
  SaleCreate.items sale = item :: rest ->
  accepts db (add_sale db_sale db) = true ->
  accepts (add_sale db_sale db) db = true ->
  (first (product_by_id product_id) (products db) = None ->
   run_request (create_sale accepts now sale current_user) db
   = (Raise (HTTPException 404 ("Product with ID " ++ str product_id ++ " not found")),
      db))
  /\ (forall product,
        first (product_by_id product_id) (products db) = Some product ->
        (forall inv, stock db product_id = Some inv ->
                     InventoryItem.quantity inv < SaleItemCreate.quantity item) ->
        run_request (create_sale accepts now sale current_user) db
        = (Raise (HTTPException 400
                    ("Insufficient inventory for product " ++ Product.name product)),
           db)).
Proof.
  intros db_sale product_id Hitems Hadd Hdel.
  assert (Habort : forall e,
             sale_item_step accepts db_sale item
               (mkSession (add_sale db_sale db) (add_sale db_sale db) false)
             = abort_sale accepts db_sale e
                 (mkSession (add_sale db_sale db) (add_sale db_sale db) false) ->
             run_request (create_sale accepts now sale current_user) db
             = (Raise e, db)).
  { intros e Hstep. rewrite create_sale_run. fold db_sale. rewrite Hadd, Hitems.
    cbn [for_each]. unfold bind at 1. rewrite Hstep, abort_sale_run.
    cbn [durable pending]. unfold db_sale. rewrite delete_new_sale.
    fold db_sale. rewrite Hdel. reflexivity. }
  split.
  - intros Hnone. apply Habort. apply step_not_found. exact Hnone.
  - intros product Hp Hq. apply Habort. apply step_insufficient; assumption.
Qed.

(** A sale that commits leaves at least five pieces of every product it
    names: a line that would leave fewer ends the call in [NameError]. *)
Theorem create_sale_leaves_five now sale current_user db response db' :
  run_request (create_sale accepts now sale current_user) db = (Return response, db') ->
  forall item, In item (SaleCreate.items sale) ->
    exists inv,
      stock db' (SaleItemCreate.product_id item) = Some inv
      /\ 5 <= InventoryItem.quantity inv.
Proof.
  intros Hrun item Hin. rewrite create_sale_run in Hrun.
  destruct (accepts db _); [|discriminate].
  destruct (for_each _ _ _) as [[[]|e] s] eqn:Hloop; [|discriminate].
  destruct (negb (dirty s) || accepts (durable s) (pending s)); [|discriminate].
  injection Hrun as _ <-.
  eapply loop_Return_left; eauto.
Qed.

(** The sale-item rows the loop adds, when it runs to its end: one per line,
    in the order of the lines, all of this sale. *)
Lemma loop_Return_items db_sale items : forall s s',
  for_each items (sale_item_step accepts db_sale) s = (Return tt, s') ->
  exists added,
    sale_items (pending s') = sale_items (pending s) ++ added
    /\ map line_of added = items
    /\ Forall (fun i => SaleItem.sale_id i = Sale.id db_sale) added.
Proof.
  induction items as [|item items IH]; intros s s' H; simpl in H.
  - inversion H; subst s'. exists []. rewrite app_nil_r. auto.
  - apply bind_inv in H as ([] & s1 & Hstep & Hrest).
    apply step_Return in Hstep as (product & inv & _ & _ & _ & _ & ->).
    apply IH in Hrest as (added & Hadded & Hlines & Hsale).
    cbn [pending] in Hadded.
    exists (SaleItem.mk (next_id (map SaleItem.id (sale_items (pending s))))
              (Sale.id db_sale) (SaleItemCreate.product_id item)
              (SaleItemCreate.quantity item) (SaleItemCreate.unit_price item)
              (SaleItemCreate.total_price item) :: added).
    split; [|split].
    + rewrite Hadded. unfold sold, decrement_inventory, add_sale_item; simpl.
      rewrite <- app_assoc. reflexivity.
    + simpl. rewrite Hlines. destruct item; reflexivity.
    + constructor; [reflexivity|exact Hsale].
Qed.

(** The response of a committed sale is the new header with one item per
    request line, in request order, each carrying its line's product,
    quantity and prices; stored sale items are taken to refer to stored
    sales. *)
Theorem create_sale_response_items now sale current_user db response db' :
  (forall i, In i (sale_items db) ->
             exists s, In s (sales db) /\ Sale.id s = SaleItem.sale_id i) ->
  run_request (create_sale accepts now sale current_user) db = (Return response, db') ->
  exists sale_items',
    response = Some (SaleSchema.mk (new_sale now sale current_user db) sale_items')
    /\ map line_of sale_items' = SaleCreate.items sale
    /\ sale_items db' = sale_items db ++ sale_items'.
Proof.
  intros Hfk Hrun. rewrite create_sale_run in Hrun.
  destruct (accepts db _); [|discriminate].
  destruct (for_each _ _ _) as [[[]|e] s] eqn:Hloop; [|discriminate].
  destruct (negb (dirty s) || accepts (durable s) (pending s)); [|discriminate].
  injection Hrun as <- <-.
  pose proof (loop_Return_items _ _ _ _ Hloop) as (added & Hadded & Hlines & Hsale).
  apply loop_Return in Hloop as (_ & _ & _ & Hsales & _).
  cbn [pending] in Hadded, Hsales.
  exists added. rewrite Hsales.
  change (sales (add_sale (new_sale now sale current_user db) db))
    with (sales db ++ [new_sale now sale current_user db]).
  change (next_id (map Sale.id (sales db)))
    with (Sale.id (new_sale now sale current_user db)).
  rewrite first_new_sale. cbn [option_map]. unfold sale_with_items.
  rewrite Hadded.
  change (sale_items (add_sale (new_sale now sale current_user db) db))
    with (sale_items db).
  split; [|split; [exact Hlines|reflexivity]].
  rewrite filter_app, filter_none, filter_all; [reflexivity| |].
  - intros i Hi. rewrite Forall_forall in Hsale. unfold items_of_sale.
    apply Z.eqb_eq. auto.
  - intros i Hi. destruct (Hfk i Hi) as (r & Hr & Heq).
    unfold items_of_sale. apply Z.eqb_neq. rewrite <- Heq. cbn [new_sale Sale.id].
    pose proof (next_id_above (map Sale.id (sales db)) (Sale.id r)
                  (in_map Sale.id _ _ Hr)). lia.
Qed.

(** A committed sale is read back by its key: [get_sale] on the store the
    sale left returns what [create_sale] returned. *)
Theorem get_sale_after_create_sale now sale current_user db response db' :
  run_request (create_sale accepts now sale current_user) db
  = (Return (Some response), db') ->
  run_request (get_sale (Sale.id (SaleSchema.sale response))) db'
  = (Return response, db').
Proof.
  intros Hrun. rewrite create_sale_run in Hrun.
  destruct (accepts db _); [|discriminate].
  destruct (for_each _ _ _) as [[[]|e] s] eqn:Hloop; [|discriminate].
  destruct (negb (dirty s) || accepts (durable s) (pending s)); [|discriminate].
  injection Hrun as Hresponse <-.
  destruct (first _ (sales (pending s))) as [stored|] eqn:Hfirst; [|discriminate].
  injection Hresponse as <-.
  apply first_Some_In in Hfirst as Hid. destruct Hid as [_ Hid].
  unfold sale_by_id in Hid. apply Z.eqb_eq in Hid.
  unfold run_request, get_sale, bind, query. cbn [pending sale_with_items SaleSchema.sale].
  rewrite Hid, Hfirst. reflexivity.
Qed.

Lemma map_update_first {A B} (g : A -> B) (p : A -> bool) (f : A -> A) rows :
  (forall r, g (f r) = g r) -> map g (update_first p f rows) = map g rows.
Proof.
  intros Hf. induction rows as [|r rows IH]; simpl; [reflexivity|].
  destruct (p r); simpl; [rewrite Hf|rewrite IH]; reflexivity.
Qed.

Lemma sale_item_step_catalog cs ps frames db_sale item :
  preserves (catalog_is cs ps frames) (sale_item_step accepts db_sale item).
Proof.
  assert (Habort : forall e, preserves (catalog_is cs ps frames)
                               (@abort_sale accepts unit db_sale e)).
  { intros e. unfold abort_sale.
    apply preserves_bind; [apply preserves_modify; auto|intros _].
    apply preserves_bind; [apply preserves_commit|intros _; apply preserves_raise]. }
  unfold sale_item_step.
  apply preserves_bind; [apply preserves_query|intros [product|]]; [|apply Habort].
  apply preserves_bind; [apply preserves_query|intros [inv|]]; [|apply Habort].
  destruct (_ <? _); [apply Habort|].
  apply preserves_bind; [apply preserves_modify; auto|intros _].
  apply preserves_bind.
  - apply preserves_modify. intros db (Hc & Hp & Hf). repeat split; auto.
    unfold decrement_inventory; simpl. rewrite map_update_first; auto.
  - intros _. destruct (_ <=? 0); [apply preserves_raise|].
    destruct (_ <? 5); [apply preserves_raise|apply preserves_ret].
Qed.

(** However [create_sale] ends, it leaves every category and product as it
    was, and of the inventory rows it changes nothing but quantities: no row
    is added or removed, and no key, product, location or status is
    written. *)
Theorem create_sale_keeps_catalog now sale current_user db :
  let db' := snd (run_request (create_sale accepts now sale current_user) db) in
  categories db' = categories db
  /\ products db' = products db
  /\ map InventoryItem_frame (inventory db') = map InventoryItem_frame (inventory db).
Proof.
  apply (preserves_run
           (catalog_is (categories db) (products db)
              (map InventoryItem_frame (inventory db)))).
  - unfold create_sale.
    apply preserves_bind; [apply preserves_query|intros db_sale].
    apply preserves_bind; [apply preserves_modify; auto|intros _].
    apply preserves_bind; [apply preserves_commit|intros _].
    apply preserves_bind.
    { apply preserves_for_each. intros item. apply sale_item_step_catalog. }
    intros _. apply preserves_bind; [apply preserves_commit|intros _].
    apply preserves_query.
  - repeat split.
Qed.

End SaleProperties.

(** ** Pages and order *)








(** ** Categories and products *)

Section CatalogProperties.

Variable accepts : DB -> DB -> bool.

(** A category that [create_category] returned is read back by its key, its
    key is new, and every category that could be read before is read as
    before. *)
Theorem create_category_then_read category db db_category db' :
  run_request (create_category accepts category) db = (Return db_category, db') ->
  run_request (read_category (Category.id db_category)) db' = (Return db_category, db')
  /\ Category.name db_category = CategoryCreate.name category
  /\ Category.description db_category = CategoryCreate.description category
  /\ ~ In (Category.id db_category) (map Category.id (categories db))
  /\ (forall category_id old,
        first (category_by_id category_id) (categories db) = Some old ->
        run_request (read_category category_id) db' = (Return old, db')).
Proof.
  unfold run_request, create_category, bind, query, modify, commit, ret; simpl.
  destruct (accepts db _); [|discriminate]. intros H. injection H as <- <-.
  assert (Hfresh : forall c, In c (categories db) ->
            Category.id c <> next_id (map Category.id (categories db))).
  { intros c Hc.
    pose proof (next_id_above (map Category.id (categories db)) (Category.id c)
                  (in_map Category.id _ _ Hc)). lia. }
  split; [|split; [reflexivity|split; [reflexivity|split]]].
  - unfold read_category, bind, query; simpl.
    rewrite first_appended; [reflexivity| |apply Z.eqb_refl].
    intros c Hc. apply Z.eqb_neq. simpl. auto.
  - simpl. intros Hin. apply in_map_iff in Hin as (c & Heq & Hc).
    apply (Hfresh c Hc). exact Heq.
  - intros category_id old Hold. unfold read_category, bind, query; simpl.
    rewrite (first_app_old _ _ _ _ Hold). reflexivity.
Qed.

(** The three category handlers that take a key answer 404 "Category not
    found" for a key that is not stored, and store nothing. *)
Theorem category_not_found category_id db :
  first (category_by_id category_id) (categories db) = None ->
  run_request (read_category category_id) db
  = (Raise (HTTPException 404 "Category not found"), db)
  /\ (forall category,
        run_request (update_category accepts category_id category) db
        = (Raise (HTTPException 404 "Category not found"), db))
  /\ run_request (delete_category accepts category_id) db
     = (Raise (HTTPException 404 "Category not found"), db).
Proof.
  intros H. repeat split; intros;
    unfold run_request, read_category, update_category, delete_category, bind, query;
    cbn [pending]; rewrite H; reflexivity.
Qed.

(** The four product handlers that take a key answer 404 "Product not found"
    for a key that is not stored, and store nothing. *)
Theorem product_not_found product_id db :
  first (product_by_id product_id) (products db) = None ->
  run_request (read_product product_id) db
  = (Raise (HTTPException 404 "Product not found"), db)
  /\ (forall product,
        run_request (update_product accepts product_id product) db
        = (Raise (HTTPException 404 "Product not found"), db))
  /\ run_request (delete_product accepts product_id) db
     = (Raise (HTTPException 404 "Product not found"), db)
  /\ (forall inventory_data,
        run_request (update_inventory product_id inventory_data) db
        = (Raise (HTTPException 404 "Product not found"), db)).
Proof.
  intros H. repeat split; intros;
    unfold run_request, read_product, update_product, delete_product,
      update_inventory, bind, query;
    cbn [pending]; rewrite H; reflexivity.
Qed.

(** A product can only be put into a stored category: [create_product] with
    an unknown category, and [update_product] that gives an unknown or null
    category, answer 404 "Category not found" and store nothing, whatever
    else the request carries. *)
Theorem unknown_category_refused db :
  (forall product,
     first (category_by_id (ProductCreate.category_id product)) (categories db) = None ->
     run_request (create_product accepts product) db
     = (Raise (HTTPException 404 "Category not found"), db))
  /\ (forall product_id product old,
        first (product_by_id product_id) (products db) = Some old ->
        match ProductUpdate.category_id product with
        | Unset => False
        | Given None => True
        | Given (Some c) => first (category_by_id c) (categories db) = None
        end ->
        run_request (update_product accepts product_id product) db
        = (Raise (HTTPException 404 "Category not found"), db)).
Proof.
  split.
  - intros product H. unfold run_request, create_product, bind, query.
    cbn [pending]. rewrite H. reflexivity.
  - intros product_id product old Hold Hc.
    unfold run_request, update_product, bind, query. cbn [pending]. rewrite Hold.
    cbn [pending]. unfold category_missing.
    destruct (ProductUpdate.category_id product) as [|[c|]]; [contradiction| |reflexivity].
    rewrite Hc. reflexivity.
Qed.


(** [create_product] commits twice.  When the engine takes the product but
    refuses its inventory row, the call ends in an integrity error with the
    product stored and no inventory row written for it. *)
Theorem create_product_not_atomic product db category :
  let db_product := new_product product db in
  let with_product := set_products (products db ++ [db_product]) db in
  first (category_by_id (ProductCreate.category_id product)) (categories db)
  = Some category ->
  accepts db with_product = true ->
  accepts with_product
    (add_inventory (initial_inventory (Product.id db_product) with_product) with_product)
  = false ->
  run_request (create_product accepts product) db = (Raise IntegrityError, with_product)
  /\ In db_product (products with_product)
  /\ inventory with_product = inventory db.
Proof.
  intros db_product with_product Hc Hfirst Hsecond.
  split; [|split; [apply in_or_app; right; left; reflexivity|reflexivity]].
  unfold run_request, create_product, bind, query, modify, commit, ret.
  cbn [pending]. rewrite Hc. cbn [pending durable dirty negb orb].
  fold db_product. fold with_product. rewrite Hfirst.
  cbn [pending durable dirty negb orb]. rewrite Hsecond. reflexivity.
Qed.

(** A product that [create_product] returned is read back by its key, with
    stock 0 and status [out_of_stock]; stored inventory rows are taken to
    belong to stored products. *)
Theorem create_product_then_read product db db_product db' :
  (forall i, In i (inventory db) ->
     exists p, In p (products db) /\ Product.id p = InventoryItem.product_id i) ->
  run_request (create_product accepts product) db = (Return db_product, db') ->
  run_request (read_product (Product.id db_product)) db'
  = (Return (ProductWithStock.mk db_product 0 OUT_OF_STOCK), db').
Proof.
  intros Hfk.
  unfold run_request, create_product, bind, query, modify, commit, ret; simpl.
  destruct (first _ (categories db)); [|discriminate]. simpl.
  destruct (accepts db _); [|discriminate]. simpl.
  destruct (accepts _ _); [|discriminate]. simpl.
  intros H. injection H as <- <-.
  assert (Hfresh : forall p, In p (products db) ->
            Product.id p <> next_id (map Product.id (products db))).
  { intros p Hp.
    pose proof (next_id_above (map Product.id (products db)) (Product.id p)
                  (in_map Product.id _ _ Hp)). lia. }
  unfold read_product, bind, query; simpl.
  rewrite first_appended; [| |apply Z.eqb_refl].
  2:{ intros p Hp. apply Z.eqb_neq. auto. }
  simpl. rewrite first_appended; [reflexivity| |apply Z.eqb_refl].
  intros i Hi. destruct (Hfk i Hi) as (p & Hp & Heq).
  unfold inventory_of. apply Z.eqb_neq. rewrite <- Heq. auto.
Qed.

(** After [delete_product] has gone through, the key is gone: reading the
    product and deleting it a second time both answer 404. *)
Theorem delete_product_twice product_id db product :
  let db' := without_product product_id db in
  first (product_by_id product_id) (products db) = Some product ->
  accepts db db' = true ->
  run_request (delete_product accepts product_id) db
  = (Return "Product deleted successfully", db')
  /\ run_request (read_product product_id) db'
     = (Raise (HTTPException 404 "Product not found"), db')
  /\ run_request (delete_product accepts product_id) db'
     = (Raise (HTTPException 404 "Product not found"), db').
Proof.
  intros db' Hp Hacc.
  assert (Hid : Product.id product = product_id).
  { apply first_Some_In in Hp as [_ Hp]. apply Z.eqb_eq in Hp. exact Hp. }
  assert (Hgone : first (product_by_id product_id) (products db') = None)
    by apply first_filter_negb.
  split; [|split].
  - unfold run_request, delete_product, bind, query, modify, commit, ret.
    cbn [pending]. rewrite Hp. cbn [pending durable dirty negb orb].
    rewrite Hid.
    match goal with |- context [accepts db ?x] => change x with db' end.
    rewrite Hacc. reflexivity.
  - unfold run_request, read_product, bind, query. cbn [pending].
    rewrite Hgone. reflexivity.
  - unfold run_request, delete_product, bind, query. cbn [pending].
    rewrite Hgone. reflexivity.
Qed.

End CatalogProperties.

(** ** Reading products *)

(** [read_products] with a category key other than zero lists products of
    that category only, and with a search text that is not empty only
    products whose name, model number or description matches the text
    between two percent signs (a null column matches nothing); a key of zero
    and an empty search text count as not given, so they list what the call
    without them lists. *)
Theorem read_products_filters ilike skip limit search db :
  (forall c listing,
     c <> 0 ->
     run_request (read_products ilike skip limit (Some c) search) db
     = (Return listing, db) ->
     forall e, In e listing -> Product.category_id (ProductWithStock.product e) = c)
  /\ (forall category_id text listing,
        text <> "" ->
        run_request (read_products ilike skip limit category_id (Some text)) db
        = (Return listing, db) ->
        forall e, In e listing ->
          let p := ProductWithStock.product e in
          let pattern := ("%" ++ text ++ "%")%string in
          ilike pattern (Product.name p) = true
          \/ (exists column, Product.model_number p = Some column
                              /\ ilike pattern column = true)
          \/ (exists column, Product.description p = Some column
                              /\ ilike pattern column = true))
  /\ run_request (read_products ilike skip limit (Some 0) search) db
     = run_request (read_products ilike skip limit None search) db
  /\ (forall category_id,
        run_request (read_products ilike skip limit category_id (Some "")) db
        = run_request (read_products ilike skip limit category_id None) db).
Proof.
  split; [|split; [|split]].
  - intros c listing Hc Hrun e He.
    unfold run_request, read_products, bind, query, ret in Hrun. cbn [pending] in Hrun.
    injection Hrun as <-. apply in_map_iff in He as ([p i] & <- & Hr).
    apply In_page, filter_In in Hr as [_ Hf]. cbn [fst] in Hf.
    unfold product_filter in Hf. apply andb_true_iff in Hf as [Hf _].
    destruct (c =? 0) eqn:E; [apply Z.eqb_eq in E; contradiction|].
    apply Z.eqb_eq in Hf. destruct i; exact Hf.
  - intros category_id text listing Htext Hrun e He p pattern.
    unfold run_request, read_products, bind, query, ret in Hrun. cbn [pending] in Hrun.
    injection Hrun as <-. apply in_map_iff in He as ([p0 i] & <- & Hr).
    apply In_page, filter_In in Hr as [_ Hf]. cbn [fst] in Hf.
    assert (Hp : p = p0) by (unfold p; destruct i; reflexivity).
    rewrite Hp. clear Hp p.
    unfold product_filter in Hf. apply andb_true_iff in Hf as [_ Hf].
    destruct (String.eqb text "") eqn:E; [apply String.eqb_eq in E; contradiction|].
    fold pattern in Hf.
    apply orb_true_iff in Hf as [Hf|Hf]; [apply orb_true_iff in Hf as [Hf|Hf]|].
    + left. exact Hf.
    + right. left. unfold ilike_column in Hf.
      destruct (Product.model_number p0) as [column|]; [eauto|discriminate].
    + right. right. unfold ilike_column in Hf.
      destruct (Product.description p0) as [column|]; [eauto|discriminate].
  - reflexivity.
  - intros category_id. reflexivity.
Qed.

(** The single read and the listing agree on a product's first inventory
    row: what [read_product] returns for a stored product with an inventory
    row is an entry of the unfiltered listing whenever the page takes all
    rows. *)
Theorem read_product_is_listed ilike limit db product_id product row :
  first (product_by_id product_id) (products db) = Some product ->
  stock db product_id = Some row ->
  (List.length (outer_join db) <= limit)%nat ->
  let entry := ProductWithStock.mk product (InventoryItem.quantity row)
                 (InventoryItem.status row) in
  run_request (read_product product_id) db = (Return entry, db)
  /\ exists listing,
       run_request (read_products ilike 0 limit None None) db = (Return listing, db)
       /\ In entry listing.
Proof.
  intros Hp Hrow Hlimit entry. split.
  { unfold run_request, read_product, bind, query, ret; simpl.
    unfold stock in Hrow. rewrite Hp. simpl. rewrite Hrow. reflexivity. }
  eexists. split; [reflexivity|]. cbn [pending].
  apply in_map_iff. exists (product, Some row). split; [reflexivity|].
  rewrite page_all.
  2:{ etransitivity; [apply filter_length_le|exact Hlimit]. }
  apply filter_In. split; [|reflexivity].
  unfold outer_join. apply in_flat_map. exists product.
  apply first_Some_In in Hp as [Hin Hid]. split; [exact Hin|].
  apply Z.eqb_eq in Hid. rewrite Hid.
  apply first_Some_In in Hrow as [Hrow_in Hrow_of].
  assert (Hf : In row (filter (inventory_of product_id) (inventory db)))
    by (apply filter_In; auto).
  destruct (filter (inventory_of product_id) (inventory db)) as [|r rows];
    [destruct Hf|].
  apply in_map_iff. exists row. auto.
Qed.

(** ** Stock that is never raised *)

Lemma preserves_for_each_In {A} P (l : list A) (body : A -> M unit) :
  (forall x, In x l -> preserves P (body x)) -> preserves P (for_each l body).
Proof.
  induction l as [|x l IH]; intros Hb; simpl.
  - apply preserves_ret.
  - apply preserves_bind; [apply Hb; now left|intros _].
    apply IH. intros y Hy. apply Hb. now right.
Qed.

Section NeverStocked.

Variable accepts : DB -> DB -> bool.

Ltac keep_going :=
  repeat first
    [ apply preserves_ret | apply preserves_raise | apply preserves_query
    | apply preserves_commit
    | apply preserves_modify; solve [auto]
    | apply preserves_commit_row; solve [auto]
    | apply preserves_bind; [|intros ?] ].

Lemma catalog_never_stocked r :
  match r with POST_sales _ _ _ => False | _ => True end ->
  forall db, never_stocked db -> never_stocked (serve accepts r db).
Proof.
  intros Hr db Hdb. unfold serve. destruct (valid_request r); [|exact Hdb].
  destruct r; try contradiction; apply preserves_run; auto.
  - unfold create_category. keep_going.
  - unfold update_category. keep_going. destruct a; keep_going.
  - unfold delete_category. keep_going. destruct a; keep_going.
  - unfold create_product.
    apply preserves_bind; [apply preserves_query|intros [category|]];
      [|apply preserves_raise].
    apply preserves_bind; [apply preserves_query|intros db_product].
    apply preserves_bind; [apply preserves_modify; auto|intros _].
    apply preserves_bind; [apply preserves_commit|intros _].
    intros s Hd Hp. apply preserves_query_bind.
    apply preserves_bind; [|intros ?; keep_going|exact Hd|exact Hp].
    apply preserves_modify. intros db0 H0. unfold never_stocked, add_inventory; simpl.
    apply Forall_app. split; [exact H0|]. repeat constructor.
  - unfold update_product. keep_going. destruct a; keep_going. destruct a; keep_going.
  - unfold delete_product. keep_going. destruct a; keep_going.
    apply preserves_modify. intros db0 H0. unfold never_stocked in *; simpl.
    rewrite Forall_forall in *. intros i Hi. apply filter_In in Hi. apply H0. tauto.
  - unfold update_inventory. keep_going. destruct a; keep_going.
Qed.

Lemma abort_sale_never_stocked {A} db_sale e :
  preserves never_stocked (@abort_sale accepts A db_sale e).
Proof. unfold abort_sale. keep_going. Qed.

(** With nothing in stock, a line that asks for at least one piece is turned
    down, and the rows stay as they are. *)
Lemma sale_item_step_never_stocked db_sale item :
  0 < SaleItemCreate.quantity item ->
  preserves never_stocked (sale_item_step accepts db_sale item).
Proof.
  intros Hq s Hd Hp.
  destruct (first (product_by_id (SaleItemCreate.product_id item))
              (products (pending s))) as [product|] eqn:Hprod.
  2:{ rewrite step_not_found by exact Hprod.
      apply abort_sale_never_stocked; assumption. }
  rewrite (step_insufficient accepts db_sale item s product Hprod).
  - apply abort_sale_never_stocked; assumption.
  - intros inv Hinv. unfold stock in Hinv. apply first_Some_In in Hinv as [Hin _].
    unfold never_stocked in Hp. rewrite Forall_forall in Hp.
    destruct (Hp inv Hin) as [Hzero _]. lia.
Qed.

Lemma create_sale_never_stocked now sale current_user :
  SaleCreate.valid sale = true ->
  preserves never_stocked (create_sale accepts now sale current_user).
Proof.
  intros Hvalid. unfold create_sale.
  apply preserves_bind; [apply preserves_query|intros db_sale].
  apply preserves_bind; [apply preserves_modify; auto|intros _].
  apply preserves_bind; [apply preserves_commit|intros _].
  apply preserves_bind.
  { apply preserves_for_each_In. intros item Hin.
    apply sale_item_step_never_stocked.
    apply andb_true_iff in Hvalid as [_ Hvalid].
    rewrite forallb_forall in Hvalid. specialize (Hvalid item Hin).
    unfold SaleItemCreate.valid in Hvalid.
    apply andb_true_iff in Hvalid as [Hvalid _].
    apply andb_true_iff in Hvalid as [Hvalid _]. apply Z.ltb_lt. exact Hvalid. }
  intros _. apply preserves_bind; [apply preserves_commit|intros _].
  apply preserves_query.
Qed.

Lemma serve_never_stocked r db :
  never_stocked db -> never_stocked (serve accepts r db).
Proof.
  intros Hdb. destruct r; try (apply catalog_never_stocked; [exact I|exact Hdb]).
  unfold serve. destruct (valid_request _) eqn:Hvalid; [|exact Hdb].
  apply preserves_run; [|exact Hdb]. apply create_sale_never_stocked. exact Hvalid.
Qed.

Lemma reachable_never_stocked db :
  reachable accepts empty_db db -> never_stocked db.
Proof.
  induction 1 as [|r db Hdb IH]; [constructor|].
  apply serve_never_stocked. exact IH.
Qed.

(** No request raises a quantity.  In every store reachable from the empty
    one, each inventory row is as [create_product] made it, quantity 0 and
    status [out_of_stock]: [update_inventory] stores nothing of what it is
    sent, and a sale line needs stock to pass. *)
Theorem stock_is_never_raised db :
  reachable accepts empty_db db -> never_stocked db.
Proof. apply reachable_never_stocked. Qed.

(** So no sale with a line ever goes through: in every store reachable from
    the empty one, a validated [create_sale] request that has at least one
    line item does not return. *)
Theorem no_sale_with_lines_commits db now sale current_user :
  reachable accepts empty_db db ->
  SaleCreate.valid sale = true ->
  SaleCreate.items sale <> [] ->
  forall response,
    fst (run_request (create_sale accepts now sale current_user) db) <> Return response.
Proof.
  intros Hreach Hvalid Hitems response Hrun.
  destruct (run_request (create_sale accepts now sale current_user) db)
    as [r db'] eqn:Hcall.
  cbn [fst] in Hrun. subst r.
  assert (Hdb' : never_stocked db').
  { replace db' with (snd (run_request (create_sale accepts now sale current_user) db))
      by (rewrite Hcall; reflexivity).
    apply preserves_run; [apply create_sale_never_stocked; exact Hvalid|].
    apply reachable_never_stocked. exact Hreach. }
  destruct (SaleCreate.items sale) as [|item rest] eqn:Hlines; [contradiction|].
  rewrite create_sale_run in Hcall.
  destruct (accepts db _); [|discriminate].
  destruct (for_each _ _ _) as [[[]|e] s] eqn:Hloop; [|discriminate].
  destruct (negb (dirty s) || accepts (durable s) (pending s)); [|discriminate].
  injection Hcall as _ <-.
  destruct (loop_Return_left accepts _ _ _ _ Hloop item) as (inv & Hinv & H5).
  { rewrite Hlines. now left. }
  unfold stock in Hinv. apply first_Some_In in Hinv as [Hin _].
  unfold never_stocked in Hdb'. rewrite Forall_forall in Hdb'.
  destruct (Hdb' inv Hin) as [Hzero _]. lia.
Qed.

End NeverStocked.

(** ** Users *)

Lemma first_None_all {A} (p : A -> bool) rows :
  first p rows = None -> forall r, In r rows -> p r = false.
Proof. unfold first. intros H r Hr. eapply find_none; eauto. Qed.

Lemma User_setattr_None attrs : fold_left User_setattr attrs None = None.
Proof. induction attrs as [|a attrs IH]; simpl; auto. Qed.

Section AuthProperties.

Variable accepts_users : list UserModel.t -> list UserModel.t -> bool.
Variable get_password_hash : option string -> outcome string.

(** An address can be registered once: a request whose email is stored is
    answered 400 "Email already registered" and stores nothing, and after a
    registration has gone through, every further request with that email is
    answered so. *)
Theorem register_user_email_taken user users :
  (forall stored, first (user_by_email (UserCreate.email user)) users = Some stored ->
     register_user accepts_users get_password_hash user users
     = (Raise (HTTPException 400 "Email already registered"), users))
  /\ (forall db_user users',
        register_user accepts_users get_password_hash user users
        = (Return db_user, users') ->
        forall again,
          UserCreate.email again = UserCreate.email user ->
          register_user accepts_users get_password_hash again users'
          = (Raise (HTTPException 400 "Email already registered"), users')).
Proof.
  split.
  - intros stored H. unfold register_user. rewrite H. reflexivity.
  - intros db_user users' Hrun again Hemail. unfold register_user in Hrun.
    destruct (first _ users) eqn:Hnone; [discriminate|].
    destruct (get_password_hash _) as [hashed|e]; [|discriminate].
    destruct (accepts_users _ _); [|discriminate].
    injection Hrun as <- <-.
    unfold register_user. rewrite Hemail, first_appended; [reflexivity| |].
    + apply first_None_all. exact Hnone.
    + unfold user_by_email. apply String.eqb_refl.
Qed.

(** What a registration stores: a new key, the email, name and role of the
    request, the hash that [get_password_hash] gave for the password, and an
    active flag that is set whatever the request's [is_active] says; the new
    row comes last and is found by its key. *)
Theorem register_user_stores user users db_user users' :
  register_user accepts_users get_password_hash user users = (Return db_user, users') ->
  users' = users ++ [db_user]
  /\ get_password_hash (Some (UserCreate.password user))
     = Return (UserModel.hashed_password db_user)
  /\ UserModel.email db_user = UserCreate.email user
  /\ UserModel.full_name db_user = UserCreate.full_name user
  /\ UserModel.role db_user = UserCreate.role user
  /\ UserModel.is_active db_user = Some true
  /\ ~ In (UserModel.id db_user) (map UserModel.id users)
  /\ first (user_by_id (UserModel.id db_user)) users' = Some db_user.
Proof.
  unfold register_user.
  destruct (first _ users); [discriminate|].
  destruct (get_password_hash _) as [hashed|e] eqn:Hhash; [|discriminate].
  destruct (accepts_users _ _); [|discriminate].
  intros H. injection H as <- <-. cbn.
  assert (Hfresh : forall u, In u users ->
            UserModel.id u <> next_id (map UserModel.id users)).
  { intros u Hu.
    pose proof (next_id_above (map UserModel.id users) (UserModel.id u)
                  (in_map UserModel.id _ _ Hu)). lia. }
  repeat split.
  - intros Hin. apply in_map_iff in Hin as (u & Heq & Hu). apply (Hfresh u Hu Heq).
  - apply first_appended; [|apply Z.eqb_refl].
    intros u Hu. apply Z.eqb_neq. cbn. auto.
Qed.

(** [update_user] changes only what the request gives: of a stored user,
    every field the request leaves out is as it was, the stored hash included
    when no password is given, however the call ends.  When it returns, the
    given fields are stored as given and the stored hash is what
    [get_password_hash] gave for the given password, never the password. *)
Theorem update_user_partial user_id user_data users old response users' :
  first (user_by_id user_id) users = Some old ->
  update_user accepts_users get_password_hash user_id user_data users
  = (response, users') ->
  exists new,
    first (user_by_id user_id) users' = Some new
    /\ User_absent_kept user_data old new
    /\ (forall r, response = Return r ->
                  r = new /\ User_given_stored get_password_hash user_data new).
Proof.
  intros Hold Hrun.
  assert (Hid : user_by_id user_id old = true)
    by (apply first_Some_In in Hold; tauto).
  assert (Hsame : exists new,
             first (user_by_id user_id) users = Some new
             /\ User_absent_kept user_data old new)
    by (exists old; split; [exact Hold|];
        unfold User_absent_kept, absent_kept; repeat split; auto).
  assert (Hfail : forall e, (response, users') = (Raise e, users) ->
            exists new, first (user_by_id user_id) users' = Some new
              /\ User_absent_kept user_data old new
              /\ (forall r, response = Return r ->
                    r = new /\ User_given_stored get_password_hash user_data new)).
  { intros e H. injection H as -> ->. destruct Hsame as (new & H1 & H2).
    exists new. split; [exact H1|]. split; [exact H2|]. discriminate. }
  unfold update_user in Hrun. rewrite Hold in Hrun.
  destruct user_data as [email full_name password role is_active], old as [i e h f r a].
  unfold UserUpdate_dict in Hrun.
  cbn [UserUpdate.email UserUpdate.full_name UserUpdate.password UserUpdate.role
         UserUpdate.is_active] in Hrun.
  destruct email as [|[email|]], full_name as [|full_name], password as [|password],
    role as [|[role|]], is_active as [|is_active];
    cbn [item app pop_password] in Hrun;
    try destruct (get_password_hash password) as [hashed|err] eqn:Hhash;
    cbn [app fold_left User_setattr option_map] in Hrun;
    rewrite ?User_setattr_None in Hrun;
    try (eapply Hfail; symmetry; exact Hrun);
    (destruct (accepts_users _ _); [|eapply Hfail; symmetry; exact Hrun]);
    injection Hrun as <- <-;
    (eexists; split;
     [eapply first_update_replace; [exact Hold|exact Hid]|];
     unfold User_absent_kept, User_given_stored; cbn;
     split; [field_facts|]; intros ? Hr; injection Hr as <-;
     split; [reflexivity|]; field_facts;
     try (intros ? Hp; injection Hp as <-; exact Hhash);
     try (intros ? Hp; discriminate Hp)).
Qed.

End AuthProperties.

(** ** The sales table *)

Section SalesTable.

Variable accepts : DB -> DB -> bool.

(** Where the loop leaves the committed rows: as they were, or, after an
    abort that went through, as the pending rows without the header; the
    sales it sees do not change on the way. *)
Lemma loop_durable db_sale items : forall s r s',
  for_each items (sale_item_step accepts db_sale) s = (r, s') ->
  durable s' = durable s
  \/ exists p, durable s' = delete_sale db_sale p /\ sales p = sales (pending s).
Proof.
  induction items as [|item items IH]; intros s r s' H; simpl in H.
  - inversion H. now left.
  - unfold bind in H.
    destruct (sale_item_step accepts db_sale item s) as [[[]|e] s1] eqn:Hstep.
    + apply step_Return in Hstep as (_ & _ & _ & _ & _ & _ & ->).
      apply IH in H. cbn [durable pending] in H. exact H.
    + injection H as _ <-.
      destruct (first (product_by_id (SaleItemCreate.product_id item))
                  (products (pending s))) as [product|] eqn:Hp.
      2:{ rewrite step_not_found, abort_sale_run in Hstep by exact Hp.
          destruct (accepts _ _); injection Hstep as _ <-; [right|now left].
          exists (pending s). auto. }
      destruct (stock (pending s) (SaleItemCreate.product_id item)) as [inv|] eqn:Hi.
      2:{ rewrite (step_insufficient accepts _ _ _ _ Hp), abort_sale_run in Hstep.
          - destruct (accepts _ _); injection Hstep as _ <-; [right|now left].
            exists (pending s). auto.
          - intros inv Hinv. congruence. }
      destruct (InventoryItem.quantity inv <? SaleItemCreate.quantity item) eqn:E.
      * rewrite (step_insufficient accepts _ _ _ _ Hp), abort_sale_run in Hstep.
        -- destruct (accepts _ _); injection Hstep as _ <-; [right|now left].
           exists (pending s). auto.
        -- intros inv' Hinv'. rewrite Hi in Hinv'. injection Hinv' as <-.
           apply Z.ltb_lt. exact E.
      * apply Z.ltb_ge in E. rewrite (step_decrement _ _ _ _ _ _ Hp Hi E) in Hstep.
        injection Hstep as _ <-. now left.
Qed.

(** [create_sale] never removes or changes a sale that was stored before:
    however the call ends, the stored sales are the ones before it, followed
    by at most the new header. *)
Theorem create_sale_keeps_sales now sale current_user db :
  let db' := snd (run_request (create_sale accepts now sale current_user) db) in
  sales db' = sales db
  \/ sales db' = sales db ++ [new_sale now sale current_user db].
Proof.
  intros db'. unfold db'. rewrite create_sale_run.
  destruct (accepts db _); [|now left].
  destruct (for_each _ _ _) as [r s] eqn:Hloop.
  assert (Hdurable : sales (durable s) = sales db
                     \/ sales (durable s)
                        = sales db ++ [new_sale now sale current_user db]).
  { apply loop_durable in Hloop as [->|(p & -> & Hp)]; [now right|left].
    cbn [pending] in Hp.
    pose proof (delete_new_sale now sale current_user db) as Hdel.
    apply (f_equal sales) in Hdel.
    unfold delete_sale, set_sales in *. cbn [sales] in *. rewrite Hp. exact Hdel. }
  destruct r as [[]|e]; [|exact Hdurable].
  destruct (negb (dirty s) || accepts (durable s) (pending s)); [|exact Hdurable].
  right. cbn [snd]. apply loop_Return in Hloop as (_ & _ & _ & Hsales & _).
  exact Hsales.
Qed.

Lemma order_by_newest (s : Sale.t) (l : list Sale.t) :
  Forall (fun r => Sale.created_at r < Sale.created_at s) l ->
  order_by_created_at_desc (l ++ [s]) = s :: order_by_created_at_desc l.
Proof.
  unfold order_by_created_at_desc. rewrite fold_right_app. simpl.
  induction 1 as [|r l Hr Hl IH]; simpl; [reflexivity|].
  rewrite IH. simpl.
  destruct (Sale.created_at s <? Sale.created_at r) eqn:E; [|reflexivity].
  apply Z.ltb_lt in E. lia.
Qed.

(** A sale committed later than every stored sale heads the listing: the
    first row of [get_sales], without dates and from the start, is what
    [create_sale] returned. *)
Theorem newest_sale_listed_first now sale current_user db response db' limit :
  Forall (fun r => Sale.created_at r < now) (sales db) ->
  run_request (create_sale accepts now sale current_user) db
  = (Return (Some response), db') ->
  exists older,
    run_request (get_sales 0 (S limit) None None) db' = (Return (response :: older), db').
Proof.
  intros Hnow Hrun. rewrite create_sale_run in Hrun.
  destruct (accepts db _); [|discriminate].
  destruct (for_each _ _ _) as [[[]|e] s] eqn:Hloop; [|discriminate].
  destruct (negb (dirty s) || accepts (durable s) (pending s)); [|discriminate].
  injection Hrun as Hresponse <-.
  apply loop_Return in Hloop as (_ & _ & _ & Hsales & _). cbn [pending] in Hsales.
  change (sales (add_sale (new_sale now sale current_user db) db))
    with (sales db ++ [new_sale now sale current_user db]) in Hsales.
  rewrite Hsales in Hresponse.
  change (next_id (map Sale.id (sales db)))
    with (Sale.id (new_sale now sale current_user db)) in Hresponse.
  rewrite first_new_sale in Hresponse. cbn [option_map] in Hresponse.
  injection Hresponse as <-.
  unfold run_request, get_sales, query. cbn [pending in_date_range andb].
  rewrite Hsales, filter_all by reflexivity.
  rewrite order_by_newest by exact Hnow.
  unfold page. cbn [skipn firstn map]. eexists. reflexivity.
Qed.

(** What an update returned is what the next read returns: [read_category]
    after [update_category], and [read_product] after [update_product], the
    latter with the stock the product had before. *)
Theorem update_then_read db :
  (forall category_id category db_category db',
     run_request (update_category accepts category_id category) db
     = (Return db_category, db') ->
     run_request (read_category category_id) db' = (Return db_category, db'))
  /\ (forall product_id product db_product db',
        run_request (update_product accepts product_id product) db
        = (Return db_product, db') ->
        run_request (read_product product_id) db'
        = (Return (with_stock db_product (stock db product_id)), db')).
Proof.
  split.
  - intros category_id category db_category db' Hrun.
    destruct (first (category_by_id category_id) (categories db)) as [old|] eqn:Hold.
    2:{ unfold run_request, update_category, bind, query in Hrun.
        cbn [pending] in Hrun. rewrite Hold in Hrun. discriminate. }
    destruct (update_category_partial accepts _ _ _ _ _ _ Hold Hrun)
      as (new & Hnew & _ & Hret).
    destruct (Hret _ eq_refl) as [-> _].
    unfold run_request, read_category, bind, query. cbn [pending].
    rewrite Hnew. reflexivity.
  - intros product_id product db_product db' Hrun.
    destruct (first (product_by_id product_id) (products db)) as [old|] eqn:Hold.
    2:{ unfold run_request, update_product, bind, query in Hrun.
        cbn [pending] in Hrun. rewrite Hold in Hrun. discriminate. }
    destruct (update_product_partial accepts _ _ _ _ _ _ Hold Hrun)
      as (new & Hnew & _ & Hret).
    destruct (Hret _ eq_refl) as [-> _].
    assert (Hinv : inventory db' = inventory db).
    { unfold run_request, update_product, bind, query in Hrun.
      cbn [pending] in Hrun. rewrite Hold in Hrun. cbn [pending] in Hrun.
      destruct (category_missing product db); [discriminate|].
      rewrite commit_row_run in Hrun.
      destruct (fold_left _ _ _); [|discriminate].
      cbn [durable pending] in Hrun.
      destruct (accepts _ _); [|discriminate].
      injection Hrun as _ <-. reflexivity. }
    unfold run_request, read_product, bind, query, ret. cbn [pending].
    rewrite Hnew. cbn [pending]. unfold stock. rewrite Hinv. reflexivity.
Qed.

End SalesTable.

(** ** Concrete runs of the further properties *)

Lemma create_sale_first_line_abort_witness :
  run_request (create_sale accept_all 100 (order [(99, 1); (1, 3)]) clerk)
    (shop 10 IN_STOCK)
  = (Raise (HTTPException 404 "Product with ID 99 not found"), shop 10 IN_STOCK)
  /\ run_request (create_sale accept_all 100 (order [(1, 15)]) clerk) (shop 10 IN_STOCK)
     = (Raise (HTTPException 400 "Insufficient inventory for product Widget"),
        shop 10 IN_STOCK).
Proof.
  split.
  - apply (proj1 (create_sale_first_line_abort accept_all 100
                    (order [(99, 1); (1, 3)]) clerk (shop 10 IN_STOCK)
                    (SaleItemCreate.mk 99 1 1 1) [SaleItemCreate.mk 1 3 1 1]
                    eq_refl eq_refl eq_refl)).
    reflexivity.
  - apply (proj2 (create_sale_first_line_abort accept_all 100
                    (order [(1, 15)]) clerk (shop 10 IN_STOCK)
                    (SaleItemCreate.mk 1 15 1 1) [] eq_refl eq_refl eq_refl)
             widget eq_refl).
    intros inv Hinv. injection Hinv as <-. simpl. lia.
Defined.

Lemma create_sale_leaves_five_witness :
  exists inv,
    stock (snd (run_request (create_sale accept_all 100 (order [(1, 3)]) clerk)
                  (shop 10 IN_STOCK))) 1 = Some inv
    /\ 5 <= InventoryItem.quantity inv.
Proof.
  apply (create_sale_leaves_five accept_all 100 (order [(1, 3)]) clerk
           (shop 10 IN_STOCK) _ _ eq_refl (SaleItemCreate.mk 1 3 1 1)).
  left; reflexivity.
Defined.

Lemma create_sale_response_items_witness :
  exists sale_items',
    fst (run_request (create_sale accept_all 100 (order [(1, 3); (1, 2)]) clerk)
           (shop 10 IN_STOCK))
    = Return (Some (SaleSchema.mk
                      (new_sale 100 (order [(1, 3); (1, 2)]) clerk (shop 10 IN_STOCK))
                      sale_items'))
    /\ map line_of sale_items' = [SaleItemCreate.mk 1 3 1 1; SaleItemCreate.mk 1 2 1 1].
Proof.
  destruct (create_sale_response_items accept_all 100 (order [(1, 3); (1, 2)]) clerk
              (shop 10 IN_STOCK) _ _ (fun i (H : In i []) => match H with end) eq_refl)
    as (sale_items' & Hresponse & Hlines & _).
  exists sale_items'. split; [|exact Hlines].
  rewrite <- Hresponse. reflexivity.
Defined.

Lemma get_sale_after_create_sale_witness :
  let created := run_request (create_sale accept_all 100 (order [(1, 3)]) clerk)
                   (shop 10 IN_STOCK) in
  exists response,
    fst created = Return (Some response)
    /\ run_request (get_sale 1) (snd created) = (Return response, snd created).
Proof.
  eexists. split; [reflexivity|].
  apply (get_sale_after_create_sale accept_all 100 (order [(1, 3)]) clerk
           (shop 10 IN_STOCK) _ _ eq_refl).
Defined.


Lemma create_category_then_read_witness :
  let created := run_request (create_category accept_all
                                (CategoryCreate.mk "Cables" None))
                   (shop 10 IN_STOCK) in
  run_request (read_category 2) (snd created)
  = (Return (Category.mk 2 "Cables" None), snd created)
  /\ run_request (read_category 1) (snd created) = (Return tools, snd created).
Proof.
  destruct (create_category_then_read accept_all (CategoryCreate.mk "Cables" None)
              (shop 10 IN_STOCK) _ _ eq_refl) as (Hnew & _ & _ & _ & Hold).
  split; [exact Hnew|]. apply (Hold 1 tools). reflexivity.
Defined.

Lemma category_not_found_witness :
  run_request (delete_category accept_all 7) (shop 10 IN_STOCK)
  = (Raise (HTTPException 404 "Category not found"), shop 10 IN_STOCK).
Proof.
  apply (category_not_found accept_all 7 (shop 10 IN_STOCK) eq_refl).
Defined.

Lemma product_not_found_witness :
  run_request (update_inventory 7 (InventoryItemUpdate.mk (Given (Some 3)) Unset Unset))
    (shop 10 IN_STOCK)
  = (Raise (HTTPException 404 "Product not found"), shop 10 IN_STOCK).
Proof.
  apply (product_not_found accept_all 7 (shop 10 IN_STOCK) eq_refl).
Defined.


Lemma create_product_not_atomic_witness :
  let product := ProductCreate.mk 1 "Hammer" None None None 2.5 4 None None in
  run_request (create_product refuse_inventory product) (shop 10 IN_STOCK)
  = (Raise IntegrityError,
     set_products [widget; new_product product (shop 10 IN_STOCK)] (shop 10 IN_STOCK)).
Proof.
  apply (create_product_not_atomic refuse_inventory
           (ProductCreate.mk 1 "Hammer" None None None 2.5 4 None None)
           (shop 10 IN_STOCK) tools eq_refl eq_refl eq_refl).
Defined.

Lemma create_product_then_read_witness :
  let product := ProductCreate.mk 1 "Hammer" None None None 2.5 4 None None in
  let created := run_request (create_product accept_all product) (shop 10 IN_STOCK) in
  run_request (read_product 2) (snd created)
  = (Return (ProductWithStock.mk (new_product product (shop 10 IN_STOCK)) 0 OUT_OF_STOCK),
     snd created).
Proof.
  intros product created.
  apply (create_product_then_read accept_all product (shop 10 IN_STOCK)
           (new_product product (shop 10 IN_STOCK)) (snd created)); [|reflexivity].
  intros i [<-|[]]. exists widget. split; [now left|reflexivity].
Defined.

Lemma delete_product_twice_witness :
  run_request (delete_product accept_all 1) (without_product 1 (shop 10 IN_STOCK))
  = (Raise (HTTPException 404 "Product not found"), without_product 1 (shop 10 IN_STOCK)).
Proof.
  apply (delete_product_twice accept_all 1 (shop 10 IN_STOCK) widget eq_refl eq_refl).
Defined.

Lemma read_product_is_listed_witness :
  run_request (read_product 1) (shop 10 IN_STOCK)
  = (Return (ProductWithStock.mk widget 10 IN_STOCK), shop 10 IN_STOCK)
  /\ In (ProductWithStock.mk widget 10 IN_STOCK)
       (map (fun r => with_stock (fst r) (snd r)) (outer_join (shop 10 IN_STOCK))).
Proof.
  destruct (read_product_is_listed ilike_contains 100 (shop 10 IN_STOCK) 1 widget
              (InventoryItem.mk 1 1 10 None IN_STOCK) eq_refl eq_refl)
    as (Hsingle & listing & Hrun & Hin); [simpl; lia|].
  split; [exact Hsingle|]. injection Hrun as <-. exact Hin.
Defined.

Lemma stock_is_never_raised_witness :
  never_stocked (fold_left (fun db r => serve accept_all r db) first_requests empty_db).
Proof.
  apply (stock_is_never_raised accept_all).
  simpl. repeat apply reachable_serve. apply reachable_start.
Defined.

Lemma no_sale_with_lines_commits_witness :
  let db := fold_left (fun db r => serve accept_all r db) first_requests empty_db in
  SaleCreate.valid (order [(1, 1)]) = true
  /\ forall response,
       fst (run_request (create_sale accept_all 100 (order [(1, 1)]) clerk) db)
       <> Return response.
Proof.
  split; [reflexivity|].
  apply (no_sale_with_lines_commits accept_all _ 100 (order [(1, 1)]) clerk).
  - simpl. repeat apply reachable_serve. apply reachable_start.
  - reflexivity.
  - discriminate.
Defined.

Lemma register_user_stores_witness :
  exists db_user,
    register_user accept_all_users marked_hash newcomer [admin]
    = (Return db_user, [admin; db_user])
    /\ UserCreate.is_active newcomer = false
    /\ UserModel.is_active db_user = Some true
    /\ UserModel.hashed_password db_user = "hash of s3cretpass".
Proof.
  eexists. split; [reflexivity|]. split; [reflexivity|].
  destruct (register_user_stores accept_all_users marked_hash newcomer [admin] _ _
              eq_refl) as (_ & _ & _ & _ & _ & Hactive & _).
  split; [exact Hactive|reflexivity].
Defined.

Lemma update_user_partial_witness :
  exists new,
    first (user_by_id 1)
      (snd (update_user accept_all_users marked_hash 1
              (UserUpdate.mk Unset Unset (Given (Some "n3wsecret")) Unset Unset)
              [admin]))
    = Some new
    /\ UserModel.email new = "admin@example.com"
    /\ UserModel.hashed_password new = "hash of n3wsecret".
Proof.
  destruct (update_user_partial accept_all_users marked_hash 1
              (UserUpdate.mk Unset Unset (Given (Some "n3wsecret")) Unset Unset)
              [admin] admin _ _ eq_refl eq_refl)
    as (new & Hnew & (_ & Hemail & _) & Hgiven).
  exists new. split; [exact Hnew|]. split; [apply Hemail; reflexivity|].
  destruct (Hgiven _ eq_refl) as (_ & _ & _ & Hhash & _).
  specialize (Hhash _ eq_refl). injection Hhash as <-. reflexivity.
Defined.

Lemma newest_sale_listed_first_witness :
  let created := run_request (create_sale accept_all 100 (order []) clerk) two_sales in
  exists response older,
    fst created = Return (Some response)
    /\ run_request (get_sales 0 1 None None) (snd created)
       = (Return (response :: older), snd created).
Proof.
  intros created.
  destruct (newest_sale_listed_first accept_all 100 (order []) clerk two_sales
              (SaleSchema.mk (new_sale 100 (order []) clerk two_sales) [])
              (snd created) 0) as (older & Hlisting).
  - repeat constructor.
  - reflexivity.
  - eexists. exists older. split; [reflexivity|exact Hlisting].
Defined.
